(** * Webex notification channels of Grafana: a shallow embedding

    The development follows the four revisions of the Webex notifier that
    live in the repository:

    - [ChannelsWebhook]  pkg/services/ngalert/notifier/channels/webex.go,
                         first revision (incoming webhook, [webhook_url]);
    - [ChannelsRoom]     the same file, second revision (room API with
                         [url], [room_id] and [api_secret]);
    - [NotifiersWebhook] the legacy single-rule notifier reading
                         [webhook_url] and [content];
    - [NotifiersRoom]    the legacy single-rule notifier reading [url],
                         [webexToken] and [roomId].

    Strings are Go strings, that is byte sequences; maps are [gmap]s;
    the transport, the template engine, the image store and the decrypt
    function are the injected collaborators of the source and stay
    arguments here.  Effects (requests handed to the transport, log lines,
    the clock) are threaded through an explicit [World]. *)

From stdpp Require Import gmap strings list fin_maps.
From Stdlib Require Import ZArith NArith Ascii.

#[local] Set Warnings "-register-all".

(** ** Go strings and the standard-library functions the notifiers call *)

Module gostring.

Definition byte (n : nat) : string := String (ascii_of_nat n) "".

(** The characters Rocq string literals cannot spell directly. *)
Definition dq : string := byte 34.
Definition nl : string := byte 10.

Definition nonempty (s : string) : bool :=
  match s with "" => false | _ => true end.

(** strings.Contains *)
Fixpoint Contains (s substr : string) : bool :=
  String.prefix substr s ||
  match s with
  | "" => false
  | String _ rest => Contains rest substr
  end.

(** strings.HasPrefix *)
Definition HasPrefix (s prefix : string) : bool := String.prefix prefix s.

(** strings.Join *)
Fixpoint Join (elems : list string) (sep : string) : string :=
  match elems with
  | [] => ""
  | [e] => e
  | e :: rest => e +:+ sep +:+ Join rest sep
  end.

Fixpoint split (sep : ascii) (s : string) : list string :=
  match s with
  | "" => [""]
  | String c rest =>
      if Ascii.eqb c sep then "" :: split sep rest
      else match split sep rest with
           | h :: t => String c h :: t
           | [] => [String c ""]
           end
  end.

(** Sorting of map keys as encoding/json does it: bytewise order. *)
Fixpoint insertByKey {A} (kv : string * A) (l : list (string * A)) : list (string * A) :=
  match l with
  | [] => [kv]
  | kv' :: rest =>
      if String.leb kv.1 kv'.1 then kv :: l else kv' :: insertByKey kv rest
  end.

Definition sortByKey {A} (l : list (string * A)) : list (string * A) :=
  foldr insertByKey [] l.

End gostring.

Module utf8.

Definition ofBytes (l : list N) : string :=
  foldr (fun b acc => String (ascii_of_N b) acc) "" l.

(** utf8.EncodeRune: the bytes a [\uXXXX] escape of a Go string literal
    stands for. *)
Definition EncodeRune (r : N) : string :=
  let r := if ((0xD800 <=? r) && (r <=? 0xDFFF) || (0x10FFFF <? r))%N
           then 0xFFFD%N else r in
  let low n := N.lor 0x80 (N.land (N.shiftr r n) 0x3F) in
  if (r <? 0x80)%N then ofBytes [r]
  else if (r <? 0x800)%N then ofBytes [N.lor 0xC0 (N.shiftr r 6); low 0%N]
  else if (r <? 0x10000)%N then
    ofBytes [N.lor 0xE0 (N.shiftr r 12); low 6%N; low 0%N]
  else ofBytes [N.lor 0xF0 (N.shiftr r 18); low 12%N; low 6%N; low 0%N].

Definition inRange (lo hi b : N) : bool := ((lo <=? b) && (b <=? hi))%N.
Definition cont (b : N) : bool := inRange 0x80 0xBF b.

(** The size of the well-formed encoding that starts with [b0] and is
    followed by [b1 b2 b3], as utf8.DecodeRuneInString accepts it;
    [None] is the (RuneError, 1) answer. *)
Definition validRuneLen (b0 b1 b2 b3 : N) : option nat :=
  if inRange 0xC2 0xDF b0 then
    if cont b1 then Some 2 else None
  else if (b0 =? 0xE0)%N then
    if inRange 0xA0 0xBF b1 && cont b2 then Some 3 else None
  else if inRange 0xE1 0xEC b0 || inRange 0xEE 0xEF b0 then
    if cont b1 && cont b2 then Some 3 else None
  else if (b0 =? 0xED)%N then
    if inRange 0x80 0x9F b1 && cont b2 then Some 3 else None
  else if (b0 =? 0xF0)%N then
    if inRange 0x90 0xBF b1 && cont b2 && cont b3 then Some 4 else None
  else if inRange 0xF1 0xF3 b0 then
    if cont b1 && cont b2 && cont b3 then Some 4 else None
  else if (b0 =? 0xF4)%N then
    if inRange 0x80 0x8F b1 && cont b2 && cont b3 then Some 4 else None
  else None.

(** The byte at offset [i], 0 past the end (0 is no continuation byte). *)
Fixpoint peek (s : string) (i : nat) : N :=
  match s, i with
  | "", _ => 0%N
  | String c _, O => N_of_ascii c
  | String _ rest, S i' => peek rest i'
  end.

End utf8.

Module fmt.

(** fmt.Sprintf restricted to the [%s] verb with string operands, which
    is all the notifiers use.  A verb without operand prints
    [%!s(MISSING)] as in Go; operands are never rescanned. *)
Fixpoint Sprintf (format : string) (args : list string) : string :=
  match format with
  | String "%" (String "s" rest) =>
      match args with
      | a :: args' => a +:+ Sprintf rest args'
      | [] => "%!s(MISSING)" +:+ Sprintf rest []
      end
  | String c rest => String c (Sprintf rest args)
  | "" => ""
  end.

End fmt.

Module path.
Import gostring.

(** One step of path.Clean on the stack of kept elements (innermost
    first): empty and [.] elements vanish, [..] removes the last kept
    element, or stays when there is nothing to remove in a relative
    path, or vanishes at the root. *)
Definition cleanStep (rooted : bool) (stack : list string) (elem : string) : list string :=
  if String.eqb elem "" || String.eqb elem "." then stack
  else if String.eqb elem ".." then
    match stack with
    | top :: below => if String.eqb top ".." then elem :: stack else below
    | [] => if rooted then [] else [elem]
    end
  else elem :: stack.

(** path.Clean *)
Definition Clean (p : string) : string :=
  if negb (nonempty p) then "."
  else
    let rooted := HasPrefix p "/" in
    let kept := rev (foldl (cleanStep rooted) [] (split "/" p)) in
    let out := Join kept "/" in
    if rooted then "/" +:+ out
    else if nonempty out then out else ".".

(** path.Join *)
Definition Join (elem : list string) : string :=
  if forallb (fun e => negb (nonempty e)) elem then ""
  else
    Clean (foldl (fun buf e =>
                    if nonempty buf || nonempty e
                    then (if nonempty buf then buf +:+ "/" else buf) +:+ e
                    else buf) "" elem).

End path.

(** ** encoding/json for the values the notifiers marshal *)

#[warnings="-register-all"]
Inductive Json : Type :=
| JNull
| JBool (b : bool)
| JNumber (literal : string)
| JString (s : string)
| JArray (elems : list Json)
| JObject (fields : gmap string Json).

Module json.
Import gostring.

Definition hexDigit (n : N) : string :=
  String.substring (N.to_nat n) 1 "0123456789abcdef".

(** An ASCII byte inside a JSON string literal, with HTML escaping on as
    json.Marshal has it. *)
Definition escapeASCII (c : ascii) : string :=
  let b := N_of_ascii c in
  if ((b =? 34) || (b =? 92))%N then "\" +:+ String c ""
  else if (b =? 10)%N then "\n"
  else if (b =? 13)%N then "\r"
  else if (b =? 9)%N then "\t"
  else if ((b <? 0x20) || (b =? 0x3C) || (b =? 0x3E) || (b =? 0x26))%N
  then "\u00" +:+ hexDigit (N.shiftr b 4) +:+ hexDigit (N.land b 0xF)
  else String c "".

(** The inside of a JSON string literal.  [copy] bytes of a rune already
    accepted are passed through, [drop] bytes of a rune already replaced
    are skipped; ill-formed UTF-8 becomes [\ufffd] and U+2028, U+2029
    are escaped. *)
Fixpoint escape (copy drop : nat) (s : string) : string :=
  match s with
  | "" => ""
  | String c rest =>
      match drop, copy with
      | S drop', _ => escape copy drop' rest
      | O, S copy' => String c (escape copy' 0 rest)
      | O, O =>
          let b0 := N_of_ascii c in
          if (b0 <? 0x80)%N then escapeASCII c +:+ escape 0 0 rest
          else
            let b1 := utf8.peek rest 0 in
            let b2 := utf8.peek rest 1 in
            let b3 := utf8.peek rest 2 in
            match utf8.validRuneLen b0 b1 b2 b3 with
            | None => "\ufffd" +:+ escape 0 0 rest
            | Some n =>
                if ((b0 =? 0xE2) && (b1 =? 0x80) && ((b2 =? 0xA8) || (b2 =? 0xA9)))%N
                then "\u202" +:+ hexDigit (N.land b2 0xF) +:+ escape 0 2 rest
                else String c (escape (n - 1) 0 rest)
            end
      end
  end.

Definition quote (s : string) : string := dq +:+ escape 0 0 s +:+ dq.

(** json.Marshal: objects are written with their keys sorted. *)
Fixpoint Marshal (v : Json) : string :=
  match v with
  | JNull => "null"
  | JBool true => "true"
  | JBool false => "false"
  | JNumber literal => literal
  | JString s => quote s
  | JArray elems => "[" +:+ Join (map Marshal elems) "," +:+ "]"
  | JObject fields =>
      let members := map_fold (fun k v acc => (k, Marshal v) :: acc) [] fields in
      "{" +:+ Join (map (fun kv => quote kv.1 +:+ ":" +:+ kv.2) (sortByKey members)) ","
          +:+ "}"
  end.

End json.

(** ** pkg/components/simplejson *)

Module simplejson.

(** Modelled from the spec: the simplejson helpers are not under src.
    A required key is "fetched, coerced to string, and an empty/missing
    result" is what the validators test; [Get] of an absent key (or of a
    value that is no object) wraps nil, and [MustString] of anything that
    is no string is the default, the empty string unless one is given. *)
Definition New : Json := JObject ∅.

Definition Get (j : Json) (key : string) : Json :=
  match j with
  | JObject fields => default JNull (fields !! key)
  | _ => JNull
  end.

Definition Set_ (j : Json) (key : string) (val : Json) : Json :=
  match j with
  | JObject fields => JObject (<[key := val]> fields)
  | _ => j
  end.

Definition MustStringOr (j : Json) (def : string) : string :=
  match j with
  | JString s => s
  | _ => def
  end.

Definition MustString (j : Json) : string := MustStringOr j "".

End simplejson.

(** ** Shared data of the alerting packages *)

(** channels.NotificationChannelConfig, with the fields the Webex channel
    reads.  [SecureSettings] holds the encrypted values by key. *)
Record NotificationChannelConfig : Type := {
  UID : string;
  Name : string;
  Type_ : string;
  DisableResolveMessage : bool;
  Settings : Json;
  SecureSettings : gmap string string;
}.

(** The dynamic types behind Go's [error] that occur here: errors.New,
    alerting.ValidationError and channels.receiverInitError. *)
Inductive error : Type :=
| errors_New (text : string)
| ValidationError (Reason : string)
| receiverInitError (Reason : string) (Cfg : NotificationChannelConfig).

(** [err.Error()].  For errors.New this is the text itself, the only case
    the factories reach; for the two struct errors it is the reason they
    carry. *)
Definition Error (err : error) : string :=
  match err with
  | errors_New text => text
  | ValidationError Reason => Reason
  | receiverInitError Reason _ => Reason
  end.

(** GetDecryptedValueFn: secure-settings store, key, plaintext fallback. *)
Definition GetDecryptedValueFn : Type :=
  gmap string string -> string -> string -> string.

Module models.

(** models.AlertNotification as the constructors fill and read it. *)
Record AlertNotification : Type := {
  Uid : string;
  Name : string;
  Type_ : string;
  DisableResolveMessage : bool;
  Settings : Json;
}.

(** models.SendWebhookSync, the request handed to the transport. *)
Record SendWebhookSync : Type := {
  Url : string;
  Body : string;
  HttpMethod : string;
  ContentType : string;
  HttpHeader : gmap string string;
}.

(** The rule states of legacy alerting (declared outside src). *)
Inductive AlertStateType : Type :=
| AlertStateNoData
| AlertStatePaused
| AlertStateAlerting
| AlertStateOK
| AlertStatePending
| AlertStateUnknown.

#[export] Instance AlertStateType_eq_dec : EqDecision AlertStateType.
Proof. solve_decision. Defined.

End models.

(** ** The world a notifier acts on *)

Inductive LogLevel : Type := LvlDebug | LvlInfo | LvlWarn | LvlError.

Inductive LogValue : Type :=
| LogString (s : string)
| LogErr (err : error)
| LogInt (n : Z).

Record LogEntry : Type := {
  level : LogLevel;
  msg : string;
  ctx : list LogValue;
}.

(** [now] is what time.Now reports, [sent] the requests handed to the
    transport so far (oldest first), [logs] the lines written so far. *)
Record World : Type := {
  now : Z;
  sent : list models.SendWebhookSync;
  logs : list LogEntry;
}.

Definition M (A : Type) : Type := World -> A * World.

#[export] Instance M_ret : MRet M := fun A (a : A) w => (a, w).
#[export] Instance M_bind : MBind M := fun A B (k : A -> M B) (m : M A) w =>
  let '(a, w') := m w in k a w'.

Definition logf (lvl : LogLevel) (message : string) (args : list LogValue) : M unit :=
  fun w => (tt, {| now := now w; sent := sent w;
                   logs := logs w ++ [{| level := lvl; msg := message; ctx := args |}] |}).

Definition timeNow : M Z := fun w => (now w, w).

Module notifications.

(** notifications.WebhookSender: the injected transport.  Its answer may
    depend on the requests it has already been handed. *)
Record WebhookSender : Type := {
  answer : list models.SendWebhookSync -> models.SendWebhookSync -> option error;
}.

Definition SendWebhookSync (ns : WebhookSender) (cmd : models.SendWebhookSync)
  : M (option error) :=
  fun w => (answer ns (sent w) cmd,
            {| now := now w; sent := sent w ++ [cmd]; logs := logs w |}).

End notifications.

(** ** Alerts, templates and images of unified alerting *)

Module types.

(** types.Alert; [EndsAt = None] is the zero time. *)
Record Alert : Type := {
  Labels : gmap string string;
  Annotations : gmap string string;
  EndsAt : option Z;
}.

Inductive AlertStatus : Type := AlertFiring | AlertResolved.

(** Alert.ResolvedAt: the activity interval ended, and not after [ts]. *)
Definition ResolvedAt (a : Alert) (ts : Z) : bool :=
  match EndsAt a with
  | None => false
  | Some e => negb (ts <? e)%Z
  end.

(** Alerts.Status at time [ts]: firing as soon as one alert is not
    resolved. *)
Fixpoint StatusAt (alerts : list Alert) (ts : Z) : AlertStatus :=
  match alerts with
  | [] => AlertResolved
  | a :: rest => if negb (ResolvedAt a ts) then AlertFiring else StatusAt rest ts
  end.

Definition Status (alerts : list Alert) : M AlertStatus :=
  ts ← timeNow; mret (StatusAt alerts ts).

End types.

Module template.

(** template.Template: the external URL (already printed) and the
    injected rendering capability, from a template text and the alert
    batch to the rendered text or an error. *)
Record Template : Type := {
  ExternalURL : string;
  ExecuteTextString : string -> list types.Alert -> string * option error;
}.

End template.

(** Modelled from the spec: the constant DefaultMessageTitleEmbed is
    declared in the channels package outside src; it is the "named
    template identifier" of the default title, spelled like the default
    message literal of webex.go. *)
Definition DefaultMessageTitleEmbed : string :=
  "{{ template " +:+ gostring.dq +:+ "default.title" +:+ gostring.dq +:+ " . }}".

(** The literal [{{ template "default.message" . }}] of webex.go. *)
Definition defaultMessageLiteral : string :=
  "{{ template " +:+ gostring.dq +:+ "default.message" +:+ gostring.dq +:+ " . }}".

(** Modelled from the spec: TmplText is not under src.  It hands back the
    expansion function over the injected templating capability; a failure
    is "captured as a soft error", rendering goes on, and once an error is
    recorded in [tmplErr] later expansions yield the empty text. *)
Definition TmplText (tmpl : template.Template) (alerts : list types.Alert)
    (name : string) (tmplErr : option error) : string * option error :=
  match tmplErr with
  | Some _ => ("", tmplErr)
  | None => template.ExecuteTextString tmpl name alerts
  end.

Module ngmodels.
Record Image : Type := { Token : string; Path : string; URL : string }.
End ngmodels.

(** ImageStore: the stored image of an alert, [None] when there is none
    or it cannot be fetched. *)
Record ImageStore : Type := {
  GetImage : types.Alert -> option ngmodels.Image;
}.

(** Modelled from the spec: withStoredImages is not under src.  It walks
    the batch in order and calls [forEachFunc] with the index and image of
    every alert that has a stored image; a missing image is skipped and
    the walk goes on; an error of the callback ends the walk. *)
Fixpoint withStoredImagesFrom {S : Type} (index : nat) (images : ImageStore)
    (forEachFunc : nat -> ngmodels.Image -> S -> S * option error)
    (alerts : list types.Alert) (acc : S) : S * option error :=
  match alerts with
  | [] => (acc, None)
  | a :: rest =>
      match GetImage images a with
      | None => withStoredImagesFrom (index + 1) images forEachFunc rest acc
      | Some img =>
          match forEachFunc index img acc with
          | (acc', Some err) => (acc', Some err)
          | (acc', None) => withStoredImagesFrom (index + 1) images forEachFunc rest acc'
          end
      end
  end.

Definition withStoredImages {S : Type} := @withStoredImagesFrom S 0.

(** Modelled from the spec: channels.Base and NewBase are not under src;
    the base keeps the identity of the channel and the "configured
    suppressResolveMessage flag", which GetDisableResolveMessage reads. *)
Module base.
Record Base : Type := {
  Name : string;
  Type_ : string;
  UID : string;
  DisableResolveMessage : bool;
}.

Definition NewBase (model : models.AlertNotification) : Base :=
  {| Name := models.Name model;
     Type_ := models.Type_ model;
     UID := models.Uid model;
     DisableResolveMessage := models.DisableResolveMessage model |}.

Definition GetDisableResolveMessage (n : Base) : bool := DisableResolveMessage n.
End base.

(** The capability every unified-alerting channel offers. *)
Class NotificationChannel (T : Type) : Type := {
  Notify : T -> list types.Alert -> M (bool * option error);
  SendResolved : T -> bool;
}.

(** The state symbols: Go's [✅], [⚠️] and [❓️],
    each followed by a space as in the source literals. *)
Definition checkMark : string := utf8.EncodeRune 0x2705.
Definition warningSign : string := utf8.EncodeRune 0x26A0 +:+ utf8.EncodeRune 0xFE0F.
Definition questionMark : string := utf8.EncodeRune 0x2753 +:+ utf8.EncodeRune 0xFE0F.

(** ** webex.go, first revision: incoming webhook *)

Module ChannelsWebhook.
Import gostring.

Record WebexConfig : Type := {
  Config : NotificationChannelConfig;
  cfgWebhookURL : string;
  cfgContent : string;
}.

Record WebexNotifier : Type := {
  Base : base.Base;
  WebhookURL : string;
  Content : string;
  log : string;
  images : ImageStore;
  ns : notifications.WebhookSender;
  tmpl : template.Template;
}.

Definition NewWebexConfig (config : NotificationChannelConfig)
    (decryptFunc : GetDecryptedValueFn) : option WebexConfig * option error :=
  let webhookUrl := simplejson.MustString (simplejson.Get (Settings config) "webhook_url") in
  if String.eqb webhookUrl "" then
    (None, Some (errors_New "could not find Webex Webhook URL in settings"))
  else
    (Some {| Config := config;
             cfgWebhookURL := webhookUrl;
             cfgContent := simplejson.MustStringOr
                             (simplejson.Get (Settings config) "message")
                             defaultMessageLiteral |},
     None).

Definition NewWebexNotifier (config : WebexConfig) (images : ImageStore)
    (ns : notifications.WebhookSender) (t : template.Template) : WebexNotifier :=
  {| Base := base.NewBase
               {| models.Uid := UID (Config config);
                  models.Name := Name (Config config);
                  models.Type_ := Type_ (Config config);
                  models.DisableResolveMessage := DisableResolveMessage (Config config);
                  models.Settings := Settings (Config config) |};
     WebhookURL := cfgWebhookURL config;
     Content := cfgContent config;
     log := "alerting.notifier.webex";
     images := images;
     ns := ns;
     tmpl := t |}.

Record FactoryConfig : Type := {
  fcConfig : NotificationChannelConfig;
  fcNotificationService : notifications.WebhookSender;
  fcDecryptFunc : GetDecryptedValueFn;
  fcImageStore : ImageStore;
  fcTemplate : template.Template;
}.

Definition WebexFactory (fc : FactoryConfig) : option WebexNotifier * option error :=
  match NewWebexConfig (fcConfig fc) (fcDecryptFunc fc) with
  | (Some cfg, None) =>
      (Some (NewWebexNotifier cfg (fcImageStore fc) (fcNotificationService fc)
               (fcTemplate fc)), None)
  | (_, Some err) => (None, Some (receiverInitError (Error err) (fcConfig fc)))
  | (None, None) => (None, None)
  end.

(** Lines 88-93: the symbol for the aggregate status of the batch. *)
Definition stateEmoji (status : types.AlertStatus) : string :=
  match status with
  | types.AlertResolved => checkMark +:+ " "
  | types.AlertFiring => warningSign +:+ " "
  end.

(** Lines 95-101: the message and the soft template error. *)
Definition buildMessage (tn : WebexNotifier) (alerts : list types.Alert)
    (status : types.AlertStatus) : string * option error :=
  let '(title, tmplErr) := TmplText (tmpl tn) alerts DefaultMessageTitleEmbed None in
  let '(content, tmplErr) := TmplText (tmpl tn) alerts (Content tn) tmplErr in
  (fmt.Sprintf ("%s%s" +:+ nl +:+ nl +:+ "*Message:*" +:+ nl +:+ "%s" +:+ nl
                +:+ "*URL:* %s" +:+ nl)
     [stateEmoji status; title; content;
      path.Join [template.ExternalURL (tmpl tn); "/alerting/list"]],
   tmplErr).

(** Lines 107-113: one more line for every stored image with a URL. *)
Definition appendImage (_ : nat) (image : ngmodels.Image) (message : string)
  : string * option error :=
  (if negb (String.eqb (ngmodels.URL image) "")
   then message +:+ fmt.Sprintf ("*Image:* %s" +:+ nl) [ngmodels.URL image]
   else message,
   None).

(** Lines 115-127: body, headers and the request. *)
Definition request (tn : WebexNotifier) (message : string) : models.SendWebhookSync :=
  let body := simplejson.Set_ simplejson.New "markdown" (JString message) in
  let data := json.Marshal body in
  let headers : gmap string string := ∅ in
  {| models.Url := WebhookURL tn;
     models.Body := data;
     models.HttpMethod := "POST";
     models.ContentType := "application/json; charset=utf-8";
     models.HttpHeader := headers |}.

Definition Notify (tn : WebexNotifier) (alerts : list types.Alert)
  : M (bool * option error) :=
  _ ← logf LvlDebug "sending webex alert notification at url"
        [LogString (WebhookURL tn)];
  status ← types.Status alerts;
  let '(message, tmplErr) := buildMessage tn alerts status in
  _ ← match tmplErr with
      | Some e => logf LvlWarn "failed to template Webex message"
                    [LogString "err"; LogString (Error e)]
      | None => mret tt
      end;
  let message := (withStoredImages (images tn) appendImage alerts message).1 in
  err ← notifications.SendWebhookSync (ns tn) (request tn message);
  match err with
  | Some e =>
      _ ← logf LvlError "Failed to send webex notification"
            [LogString "err"; LogErr e; LogString "webhook";
             LogString (base.Name (Base tn))];
      mret (false, Some e)
  | None => mret (true, None)
  end.

Definition SendResolved (tn : WebexNotifier) : bool :=
  negb (base.GetDisableResolveMessage (Base tn)).

#[export] Instance WebexNotifier_channel : NotificationChannel WebexNotifier :=
  Build_NotificationChannel WebexNotifier Notify SendResolved.

(** The message [Notify] marshals when the clock reads [ts]: the built
    message followed by the image lines. *)
Definition postedMessage (tn : WebexNotifier) (alerts : list types.Alert) (ts : Z)
  : string :=
  (withStoredImages (images tn) appendImage alerts
     (buildMessage tn alerts (types.StatusAt alerts ts)).1).1.

End ChannelsWebhook.

(** ** webex.go, second revision: room API with a bearer secret *)

Module ChannelsRoom.
Import gostring.

Record WebexConfig : Type := {
  Config : NotificationChannelConfig;
  cfgURL : string;
  cfgRoomID : string;
  cfgAPISecret : string;
}.

Record WebexNotifier : Type := {
  Base : base.Base;
  URL : string;
  RoomID : string;
  APISecret : string;
  log : string;
  images : ImageStore;
  ns : notifications.WebhookSender;
  tmpl : template.Template;
}.

Definition NewWebexConfig (config : NotificationChannelConfig)
    (decryptFunc : GetDecryptedValueFn) : option WebexConfig * option error :=
  let webexUrl := simplejson.MustString (simplejson.Get (Settings config) "url") in
  if String.eqb webexUrl "" then
    (None, Some (errors_New "could not find Webex URL in settings"))
  else
    let roomID := simplejson.MustString (simplejson.Get (Settings config) "room_id") in
    if String.eqb roomID "" then
      (None, Some (errors_New "could not find Webex Room ID in settings"))
    else
      let apiSecret :=
        decryptFunc (SecureSettings config) "api_secret"
          (simplejson.MustString (simplejson.Get (Settings config) "api_secret")) in
      if String.eqb apiSecret "" then
        (None, Some (errors_New "could not find Webex API secret in settings"))
      else
        (Some {| Config := config;
                 cfgURL := webexUrl;
                 cfgRoomID := roomID;
                 cfgAPISecret := apiSecret |},
         None).

Definition NewWebexNotifier (config : WebexConfig) (images : ImageStore)
    (ns : notifications.WebhookSender) (t : template.Template) : WebexNotifier :=
  {| Base := base.NewBase
               {| models.Uid := UID (Config config);
                  models.Name := Name (Config config);
                  models.Type_ := Type_ (Config config);
                  models.DisableResolveMessage := DisableResolveMessage (Config config);
                  models.Settings := Settings (Config config) |};
     URL := cfgURL config;
     RoomID := cfgRoomID config;
     APISecret := cfgAPISecret config;
     log := "alerting.notifier.webex";
     images := images;
     ns := ns;
     tmpl := t |}.

Record FactoryConfig : Type := {
  fcConfig : NotificationChannelConfig;
  fcNotificationService : notifications.WebhookSender;
  fcDecryptFunc : GetDecryptedValueFn;
  fcImageStore : ImageStore;
  fcTemplate : template.Template;
}.

Definition WebexFactory (fc : FactoryConfig) : option WebexNotifier * option error :=
  match NewWebexConfig (fcConfig fc) (fcDecryptFunc fc) with
  | (Some cfg, None) =>
      (Some (NewWebexNotifier cfg (fcImageStore fc) (fcNotificationService fc)
               (fcTemplate fc)), None)
  | (_, Some err) => (None, Some (receiverInitError (Error err) (fcConfig fc)))
  | (None, None) => (None, None)
  end.

(** Lines 239-244. *)
Definition stateEmoji (status : types.AlertStatus) : string :=
  match status with
  | types.AlertResolved => checkMark +:+ " "
  | types.AlertFiring => warningSign +:+ " "
  end.

(** Lines 246-252: this revision always expands the default message. *)
Definition buildMessage (tn : WebexNotifier) (alerts : list types.Alert)
    (status : types.AlertStatus) : string * option error :=
  let '(title, tmplErr) := TmplText (tmpl tn) alerts DefaultMessageTitleEmbed None in
  let '(content, tmplErr) := TmplText (tmpl tn) alerts defaultMessageLiteral tmplErr in
  (fmt.Sprintf ("%s%s" +:+ nl +:+ nl +:+ "*Message:*" +:+ nl +:+ "%s" +:+ nl
                +:+ "*URL:* %s" +:+ nl)
     [stateEmoji status; title; content;
      path.Join [template.ExternalURL (tmpl tn); "/alerting/list"]],
   tmplErr).

(** Lines 258-264. *)
Definition appendImage (_ : nat) (image : ngmodels.Image) (message : string)
  : string * option error :=
  (if negb (String.eqb (ngmodels.URL image) "")
   then message +:+ fmt.Sprintf ("*Image:* %s" +:+ nl) [ngmodels.URL image]
   else message,
   None).

(** Lines 266-269: the Go map that is marshalled. *)
Definition body (tn : WebexNotifier) (message : string) : gmap string Json :=
  <["roomId" := JString (RoomID tn)]> (<["markdown" := JString message]> ∅).

(** Lines 270-281. *)
Definition request (tn : WebexNotifier) (message : string) : models.SendWebhookSync :=
  let data := json.Marshal (JObject (body tn message)) in
  let headers : gmap string string :=
    {[ "Authorization" := fmt.Sprintf "Bearer %s" [APISecret tn] ]} in
  {| models.Url := URL tn;
     models.Body := data;
     models.HttpMethod := "POST";
     models.ContentType := "application/json; charset=utf-8";
     models.HttpHeader := headers |}.

Definition Notify (tn : WebexNotifier) (alerts : list types.Alert)
  : M (bool * option error) :=
  _ ← logf LvlDebug "sending webex alert notification at url"
        [LogString (URL tn); LogString "to"; LogString (RoomID tn)];
  status ← types.Status alerts;
  let '(message, tmplErr) := buildMessage tn alerts status in
  _ ← match tmplErr with
      | Some e => logf LvlWarn "failed to template Webex message"
                    [LogString "err"; LogString (Error e)]
      | None => mret tt
      end;
  let message := (withStoredImages (images tn) appendImage alerts message).1 in
  err ← notifications.SendWebhookSync (ns tn) (request tn message);
  match err with
  | Some e =>
      _ ← logf LvlError "Failed to send webex notification"
            [LogString "err"; LogErr e; LogString "webhook";
             LogString (base.Name (Base tn))];
      mret (false, Some e)
  | None => mret (true, None)
  end.

Definition SendResolved (tn : WebexNotifier) : bool :=
  negb (base.GetDisableResolveMessage (Base tn)).

#[export] Instance WebexNotifier_channel : NotificationChannel WebexNotifier :=
  Build_NotificationChannel WebexNotifier Notify SendResolved.

(** The message [Notify] marshals when the clock reads [ts]. *)
Definition postedMessage (tn : WebexNotifier) (alerts : list types.Alert) (ts : Z)
  : string :=
  (withStoredImages (images tn) appendImage alerts
     (buildMessage tn alerts (types.StatusAt alerts ts)).1).1.

End ChannelsRoom.

(** ** Legacy alerting: the evaluation context and the notifier base *)

Module alerting.

Record Rule : Type := {
  ID : Z;
  Name : string;
  Message : string;
  State : models.AlertStateType;
}.

(** alerting.EvalContext.  GetNotificationTitle is defined outside src;
    the context carries the title it reports. *)
Record EvalContext : Type := {
  Rule_ : Rule;
  GetNotificationTitle : string;
}.

(** Modelled from the spec: NotifierBase and NewNotifierBase are not
    under src; the base keeps the identity of the notifier, the
    "suppressResolveMessage flag" and the injected transport. *)
Record NotifierBase : Type := {
  baseName : string;
  baseType : string;
  baseUID : string;
  baseDisableResolveMessage : bool;
  NotificationService : notifications.WebhookSender;
}.

Definition NewNotifierBase (model : models.AlertNotification)
    (ns : notifications.WebhookSender) : NotifierBase :=
  {| baseName := models.Name model;
     baseType := models.Type_ model;
     baseUID := models.Uid model;
     baseDisableResolveMessage := models.DisableResolveMessage model;
     NotificationService := ns |}.

(** The form element and input kinds the Webex plugins name. *)
Inductive ElementType : Type := ElementTypeInput.
Inductive InputType : Type := InputTypeText.

(** alerting.NotifierOption with the fields the plugins fill; a field a
    literal leaves out has Go's zero value. *)
Record NotifierOption : Type := {
  Label : string;
  optDescription : string;
  Element : ElementType;
  InputType_ : InputType;
  Placeholder : string;
  PropertyName : string;
  Required : bool;
  Secure : bool;
}.

(** alerting.NotifierPlugin for a notifier type [N]. *)
Record NotifierPlugin (N : Type) : Type := {
  pluginType : string;
  pluginName : string;
  pluginDescription : string;
  Heading : string;
  Factory : models.AlertNotification -> GetDecryptedValueFn ->
            notifications.WebhookSender -> option N * option error;
  Options : list NotifierOption;
}.
Arguments pluginType {N} _.
Arguments pluginName {N} _.
Arguments pluginDescription {N} _.
Arguments Heading {N} _.
Arguments Factory {N} _.
Arguments Options {N} _.

End alerting.

(** ** Legacy notifier, incoming webhook ([webhook_url], [content]) *)

Module NotifiersWebhook.
Import gostring.

Record WebexNotifier : Type := {
  NotifierBase : alerting.NotifierBase;
  WebhookURL : string;
  Content : string;
  log : string;
}.

Definition NewWebexNotifier (model : models.AlertNotification)
    (_ : GetDecryptedValueFn) (ns : notifications.WebhookSender)
  : option WebexNotifier * option error :=
  let webhookURL := simplejson.MustString (simplejson.Get (models.Settings model) "webhook_url") in
  if String.eqb webhookURL "" then
    (None, Some (ValidationError "Could not find webhook_url property in settings"))
  else
    let content := simplejson.MustString (simplejson.Get (models.Settings model) "content") in
    (Some {| NotifierBase := alerting.NewNotifierBase model ns;
             WebhookURL := webhookURL;
             Content := content;
             log := "alerting.notifier.webex" |},
     None).

(** Lines 71-82. *)
Definition stateEmoji (state : models.AlertStateType) : string :=
  match state with
  | models.AlertStateOK => checkMark +:+ " "
  | models.AlertStateNoData => questionMark +:+ " "
  | models.AlertStateAlerting => warningSign +:+ " "
  | _ => ""
  end.

(** Lines 84-87. *)
Definition buildMessage (evalContext : alerting.EvalContext) : string :=
  fmt.Sprintf ("%s%s" +:+ nl +:+ nl +:+ "*State:* %s" +:+ nl +:+ "*Message:* %s" +:+ nl)
    [stateEmoji (alerting.State (alerting.Rule_ evalContext));
     alerting.GetNotificationTitle evalContext;
     alerting.Name (alerting.Rule_ evalContext);
     alerting.Message (alerting.Rule_ evalContext)].

(** Lines 89-93: the simplejson object that is marshalled. *)
Definition body (wn : WebexNotifier) (message : string) : Json :=
  let body := simplejson.New in
  if negb (String.eqb (Content wn) "")
  then simplejson.Set_ body "markdown" (JString message)
  else body.

(** Lines 95-102. *)
Definition request (wn : WebexNotifier) (message : string) : models.SendWebhookSync :=
  let data := json.Marshal (body wn message) in
  {| models.Url := WebhookURL wn;
     models.Body := data;
     models.ContentType := "application/json; charset=utf-8";
     models.HttpMethod := "POST";
     models.HttpHeader := ∅ |}.

Definition Notify (wn : WebexNotifier) (evalContext : alerting.EvalContext)
  : M (option error) :=
  _ ← logf LvlInfo "Executing webex notification"
        [LogString "ruleId"; LogInt (alerting.ID (alerting.Rule_ evalContext));
         LogString "notification"; LogString (alerting.baseName (NotifierBase wn))];
  let message := buildMessage evalContext in
  err ← notifications.SendWebhookSync
          (alerting.NotificationService (NotifierBase wn)) (request wn message);
  match err with
  | Some e =>
      _ ← logf LvlError "Failed to send webex notification"
            [LogString "error"; LogErr e; LogString "webhook";
             LogString (alerting.baseName (NotifierBase wn))];
      mret (Some e)
  | None => mret None
  end.

(** Lines 14-39: the plugin [init] hands to alerting.RegisterNotifier. *)
Definition webexPlugin : alerting.NotifierPlugin WebexNotifier :=
  {| alerting.pluginType := "webex";
     alerting.pluginName := "Cisco Webex";
     alerting.pluginDescription :=
       "Sends notifications using Incoming Webhook connector to Cisco Webex";
     alerting.Heading := "Webex settings";
     alerting.Factory := NewWebexNotifier;
     alerting.Options :=
       [ {| alerting.Label := "Cisco Webex Incoming Webhook URL";
            alerting.optDescription := "";
            alerting.Element := alerting.ElementTypeInput;
            alerting.InputType_ := alerting.InputTypeText;
            alerting.Placeholder := "https://webexapis.com/v1/webhooks/incoming/<room-id>";
            alerting.PropertyName := "webhook_url";
            alerting.Required := true;
            alerting.Secure := false |};
         {| alerting.Label := "Message Content";
            alerting.optDescription := "Message content template";
            alerting.Element := alerting.ElementTypeInput;
            alerting.InputType_ := alerting.InputTypeText;
            alerting.Placeholder := "";
            alerting.PropertyName := "content";
            alerting.Required := false;
            alerting.Secure := false |} ] |}.

End NotifiersWebhook.

(** ** Legacy notifier, room API ([url], [webexToken], [roomId]) *)

Module NotifiersRoom.
Import gostring.

Record WebexNotifier : Type := {
  NotifierBase : alerting.NotifierBase;
  URL : string;
  ApiToken : string;
  RoomId : string;
  log : string;
}.

Definition NewWebexNotifier (model : models.AlertNotification)
    (_ : GetDecryptedValueFn) (ns : notifications.WebhookSender)
  : option WebexNotifier * option error :=
  let url := simplejson.MustString (simplejson.Get (models.Settings model) "url") in
  if String.eqb url "" then
    (None, Some (ValidationError "Could not find url property in settings"))
  else
    let webexApiToken :=
      simplejson.MustString (simplejson.Get (models.Settings model) "webexToken") in
    if String.eqb webexApiToken "" then
      (None, Some (ValidationError "Could not find webexToken property in settings"))
    else
      let webexRoomId :=
        simplejson.MustString (simplejson.Get (models.Settings model) "roomId") in
      if String.eqb webexRoomId "" then
        (None, Some (ValidationError "Could not find roomId property in settings"))
      else
        (Some {| NotifierBase := alerting.NewNotifierBase model ns;
                 URL := url;
                 ApiToken := webexApiToken;
                 RoomId := webexRoomId;
                 log := "alerting.notifier.webex" |},
         None).

(** Lines 90-101. *)
Definition stateEmoji (state : models.AlertStateType) : string :=
  match state with
  | models.AlertStateOK => checkMark +:+ " "
  | models.AlertStateNoData => questionMark +:+ " "
  | models.AlertStateAlerting => warningSign +:+ " "
  | _ => ""
  end.

(** Lines 103-106. *)
Definition buildMessage (evalContext : alerting.EvalContext) : string :=
  fmt.Sprintf ("%s%s" +:+ nl +:+ nl +:+ "*State:* %s" +:+ nl +:+ "*Message:* %s" +:+ nl)
    [stateEmoji (alerting.State (alerting.Rule_ evalContext));
     alerting.GetNotificationTitle evalContext;
     alerting.Name (alerting.Rule_ evalContext);
     alerting.Message (alerting.Rule_ evalContext)].

(** Lines 108-111. *)
Definition body (wn : WebexNotifier) (message : string) : gmap string Json :=
  <["roomId" := JString (RoomId wn)]> (<["markdown" := JString message]> ∅).

(** Lines 113-124. *)
Definition request (wn : WebexNotifier) (message : string) : models.SendWebhookSync :=
  let headers : gmap string string :=
    {[ "Authorization" := fmt.Sprintf "Bearer %s" [ApiToken wn] ]} in
  let data := json.Marshal (JObject (body wn message)) in
  {| models.Url := URL wn;
     models.Body := data;
     models.ContentType := "application/json; charset=utf-8";
     models.HttpMethod := "POST";
     models.HttpHeader := headers |}.

Definition Notify (wn : WebexNotifier) (evalContext : alerting.EvalContext)
  : M (option error) :=
  _ ← logf LvlInfo "Executing webex notification"
        [LogString "ruleId"; LogInt (alerting.ID (alerting.Rule_ evalContext));
         LogString "notification"; LogString (alerting.baseName (NotifierBase wn))];
  let message := buildMessage evalContext in
  err ← notifications.SendWebhookSync
          (alerting.NotificationService (NotifierBase wn)) (request wn message);
  match err with
  | Some e =>
      _ ← logf LvlError "Failed to send webex notification"
            [LogString "error"; LogErr e; LogString "webhook";
             LogString (alerting.baseName (NotifierBase wn))];
      mret (Some e)
  | None => mret None
  end.

(** Lines 13-48: the plugin [init] hands to alerting.RegisterNotifier. *)
Definition webexPlugin : alerting.NotifierPlugin WebexNotifier :=
  {| alerting.pluginType := "webex";
     alerting.pluginName := "Cisco Webex";
     alerting.pluginDescription :=
       "Sends notifications using Incoming Webhook connector to Cisco Webex";
     alerting.Heading := "Webex settings";
     alerting.Factory := NewWebexNotifier;
     alerting.Options :=
       [ {| alerting.Label := "URL";
            alerting.optDescription := "";
            alerting.Element := alerting.ElementTypeInput;
            alerting.InputType_ := alerting.InputTypeText;
            alerting.Placeholder := "Webex incoming webhook url";
            alerting.PropertyName := "url";
            alerting.Required := true;
            alerting.Secure := false |};
         {| alerting.Label := "WebexToken";
            alerting.optDescription := "";
            alerting.Element := alerting.ElementTypeInput;
            alerting.InputType_ := alerting.InputTypeText;
            alerting.Placeholder := "Webex API Token";
            alerting.PropertyName := "webexToken";
            alerting.Required := true;
            alerting.Secure := true |};
         {| alerting.Label := "RoomId";
            alerting.optDescription := "";
            alerting.Element := alerting.ElementTypeInput;
            alerting.InputType_ := alerting.InputTypeText;
            alerting.Placeholder := "Webex Room Id";
            alerting.PropertyName := "roomId";
            alerting.Required := true;
            alerting.Secure := false |} ] |}.

End NotifiersRoom.

(** * Properties *)

Import gostring.

(** ** Strings *)

Lemma append_cons (x : ascii) (a b : string) : String x a +:+ b = String x (a +:+ b).
Proof. reflexivity. Qed.

Lemma append_assoc (a b c : string) : (a +:+ b) +:+ c = a +:+ (b +:+ c).
Proof. induction a as [|x a IH]; [reflexivity|]. by rewrite !append_cons, IH. Qed.

Lemma append_nil_r (a : string) : a +:+ "" = a.
Proof. induction a as [|x a IH]; [reflexivity|]. by rewrite append_cons, IH. Qed.

Lemma prefix_append (p s : string) : String.prefix p (p +:+ s) = true.
Proof.
  induction p as [|x p IH].
  - by destruct s.
  - rewrite append_cons. cbn. destruct (ascii_dec x x); [exact IH | congruence].
Qed.

Lemma Contains_prefix (p s : string) : Contains (p +:+ s) p = true.
Proof.
  destruct p as [|x p].
  - by destruct s.
  - rewrite append_cons. cbn [Contains]. rewrite <- append_cons.
    by rewrite prefix_append.
Qed.

Lemma Contains_append_r (pre s sub : string) :
  Contains s sub = true → Contains (pre +:+ s) sub = true.
Proof.
  intros H. induction pre as [|x pre IH]; [exact H|].
  rewrite append_cons. cbn [Contains]. rewrite IH. apply orb_true_r.
Qed.

(** A text that occurs between any two texts is contained in the whole. *)
Lemma Contains_middle (pre sub post : string) :
  Contains (pre +:+ sub +:+ post) sub = true.
Proof. apply Contains_append_r, Contains_prefix. Qed.

Lemma eqb_empty_false (s : string) : s ≠ "" → String.eqb s "" = false.
Proof. by intros ?%String.eqb_neq. Qed.

(** ** simplejson: what "missing or coerces to the empty string" means *)

Lemma MustString_Get_absent (fields : gmap string Json) (key : string) :
  fields !! key = None → simplejson.MustString (simplejson.Get (JObject fields) key) = "".
Proof. intros H. cbn. by rewrite H. Qed.

Lemma MustString_Get_string (fields : gmap string Json) (key s : string) :
  fields !! key = Some (JString s) →
  simplejson.MustString (simplejson.Get (JObject fields) key) = s.
Proof. intros H. cbn. by rewrite H. Qed.

Lemma MustString_Get_not_string (fields : gmap string Json) (key : string) (v : Json) :
  fields !! key = Some v → (∀ s, v ≠ JString s) →
  simplejson.MustString (simplejson.Get (JObject fields) key) = "".
Proof. intros H Hv. cbn. rewrite H. destruct v; cbn; try done. by destruct (Hv s). Qed.

(** ** The aggregate status of a batch *)

Lemma StatusAt_resolved (alerts : list types.Alert) (ts : Z) :
  Forall (λ a, types.ResolvedAt a ts = true) alerts →
  types.StatusAt alerts ts = types.AlertResolved.
Proof.
  induction 1 as [|a rest Ha _ IH]; [reflexivity|].
  cbn. by rewrite Ha.
Qed.

Lemma StatusAt_firing (alerts : list types.Alert) (ts : Z) :
  Exists (λ a, types.ResolvedAt a ts = false) alerts →
  types.StatusAt alerts ts = types.AlertFiring.
Proof.
  induction 1 as [a rest Ha|a rest _ IH]; cbn.
  - by rewrite Ha.
  - rewrite IH. by destruct (types.ResolvedAt a ts).
Qed.

(** ** Images only ever add lines at the end *)

Lemma withStoredImagesFrom_appends (images : ImageStore)
    (f : nat → ngmodels.Image → string → string * option error) :
  (∀ i img m, ∃ line, f i img m = (m +:+ line, None)) →
  ∀ alerts index message,
    ∃ lines, withStoredImagesFrom index images f alerts message = (message +:+ lines, None).
Proof.
  intros Hf alerts. induction alerts as [|a rest IH]; intros index message; cbn.
  - exists "". by rewrite append_nil_r.
  - destruct (GetImage images a) as [img|]; [|apply IH].
    destruct (Hf index img message) as [line Hline]. rewrite Hline.
    destruct (IH (index + 1) (message +:+ line)) as [lines Hlines].
    exists (line +:+ lines). by rewrite Hlines, append_assoc.
Qed.

Lemma Webhook_appendImage_appends i img m :
  ∃ line, ChannelsWebhook.appendImage i img m = (m +:+ line, None).
Proof.
  unfold ChannelsWebhook.appendImage.
  destruct (negb _); [eexists; reflexivity|].
  exists "". by rewrite append_nil_r.
Qed.

Lemma Room_appendImage_appends i img m :
  ∃ line, ChannelsRoom.appendImage i img m = (m +:+ line, None).
Proof.
  unfold ChannelsRoom.appendImage.
  destruct (negb _); [eexists; reflexivity|].
  exists "". by rewrite append_nil_r.
Qed.

(** ** The shape of the messages *)

Lemma Webhook_buildMessage_shape tn alerts status :
  ∃ title content,
    (ChannelsWebhook.buildMessage tn alerts status).1 =
      ChannelsWebhook.stateEmoji status +:+ title +:+ nl +:+ nl +:+ "*Message:*" +:+ nl
      +:+ content +:+ nl +:+ "*URL:* "
      +:+ path.Join [template.ExternalURL (ChannelsWebhook.tmpl tn); "/alerting/list"]
      +:+ nl.
Proof.
  unfold ChannelsWebhook.buildMessage.
  destruct (TmplText _ _ _ None) as [title e1].
  destruct (TmplText _ _ _ e1) as [content e2].
  by exists title, content.
Qed.

Lemma Room_buildMessage_shape tn alerts status :
  ∃ title content,
    (ChannelsRoom.buildMessage tn alerts status).1 =
      ChannelsRoom.stateEmoji status +:+ title +:+ nl +:+ nl +:+ "*Message:*" +:+ nl
      +:+ content +:+ nl +:+ "*URL:* "
      +:+ path.Join [template.ExternalURL (ChannelsRoom.tmpl tn); "/alerting/list"]
      +:+ nl.
Proof.
  unfold ChannelsRoom.buildMessage.
  destruct (TmplText _ _ _ None) as [title e1].
  destruct (TmplText _ _ _ e1) as [content e2].
  by exists title, content.
Qed.

(** ** What one call of Notify does to the world *)

Lemma Webhook_Notify_run tn alerts w :
  let cmd := ChannelsWebhook.request tn (ChannelsWebhook.postedMessage tn alerts (now w)) in
  (ChannelsWebhook.Notify tn alerts w).1 =
    match notifications.answer (ChannelsWebhook.ns tn) (sent w) cmd with
    | Some e => (false, Some e)
    | None => (true, None)
    end
  ∧ sent (ChannelsWebhook.Notify tn alerts w).2 = sent w ++ [cmd]
  ∧ now (ChannelsWebhook.Notify tn alerts w).2 = now w.
Proof.
  unfold ChannelsWebhook.Notify, ChannelsWebhook.postedMessage, types.Status, timeNow,
    notifications.SendWebhookSync, logf, mbind, mret, M_bind, M_ret; cbn.
  destruct (ChannelsWebhook.buildMessage _ _ _) as [message [e|]]; cbn;
    destruct (notifications.answer _ _ _); cbn; done.
Qed.

Lemma Room_Notify_run tn alerts w :
  let cmd := ChannelsRoom.request tn (ChannelsRoom.postedMessage tn alerts (now w)) in
  (ChannelsRoom.Notify tn alerts w).1 =
    match notifications.answer (ChannelsRoom.ns tn) (sent w) cmd with
    | Some e => (false, Some e)
    | None => (true, None)
    end
  ∧ sent (ChannelsRoom.Notify tn alerts w).2 = sent w ++ [cmd]
  ∧ now (ChannelsRoom.Notify tn alerts w).2 = now w.
Proof.
  unfold ChannelsRoom.Notify, ChannelsRoom.postedMessage, types.Status, timeNow,
    notifications.SendWebhookSync, logf, mbind, mret, M_bind, M_ret; cbn.
  destruct (ChannelsRoom.buildMessage _ _ _) as [message [e|]]; cbn;
    destruct (notifications.answer _ _ _); cbn; done.
Qed.

Lemma Webhook_postedMessage_shape tn alerts ts :
  ∃ title content lines,
    ChannelsWebhook.postedMessage tn alerts ts =
      ChannelsWebhook.stateEmoji (types.StatusAt alerts ts) +:+ title +:+ nl +:+ nl
      +:+ "*Message:*" +:+ nl +:+ content +:+ nl +:+ "*URL:* "
      +:+ path.Join [template.ExternalURL (ChannelsWebhook.tmpl tn); "/alerting/list"]
      +:+ nl +:+ lines.
Proof.
  unfold ChannelsWebhook.postedMessage, withStoredImages.
  destruct (Webhook_buildMessage_shape tn alerts (types.StatusAt alerts ts))
    as (title & content & ->).
  edestruct (withStoredImagesFrom_appends (ChannelsWebhook.images tn)
               ChannelsWebhook.appendImage Webhook_appendImage_appends alerts 0)
    as [lines ->].
  exists title, content, lines. cbn [fst]. by rewrite !append_assoc.
Qed.

Lemma Room_postedMessage_shape tn alerts ts :
  ∃ title content lines,
    ChannelsRoom.postedMessage tn alerts ts =
      ChannelsRoom.stateEmoji (types.StatusAt alerts ts) +:+ title +:+ nl +:+ nl
      +:+ "*Message:*" +:+ nl +:+ content +:+ nl +:+ "*URL:* "
      +:+ path.Join [template.ExternalURL (ChannelsRoom.tmpl tn); "/alerting/list"]
      +:+ nl +:+ lines.
Proof.
  unfold ChannelsRoom.postedMessage, withStoredImages.
  destruct (Room_buildMessage_shape tn alerts (types.StatusAt alerts ts))
    as (title & content & ->).
  edestruct (withStoredImagesFrom_appends (ChannelsRoom.images tn)
               ChannelsRoom.appendImage Room_appendImage_appends alerts 0)
    as [lines ->].
  exists title, content, lines. cbn [fst]. by rewrite !append_assoc.
Qed.

(** ** Validation *)

(** Inputs used to run the validators and notifiers on concrete data. *)
Definition plainDecrypt : GetDecryptedValueFn :=
  λ secure key fallback, default fallback (secure !! key).

Definition channelConfig (settings : gmap string Json) : NotificationChannelConfig :=
  {| UID := "uid-1"; Name := "ops"; Type_ := "webex"; DisableResolveMessage := false;
     Settings := JObject settings; SecureSettings := ∅ |}.

Definition legacyModel (settings : gmap string Json) : models.AlertNotification :=
  {| models.Uid := "uid-1"; models.Name := "ops"; models.Type_ := "webex";
     models.DisableResolveMessage := false; models.Settings := JObject settings |}.

Definition okTransport : notifications.WebhookSender :=
  {| notifications.answer := λ _ _, None |}.

Definition failingTransport : notifications.WebhookSender :=
  {| notifications.answer := λ _ _, Some (errors_New "connection refused") |}.

Definition noImages : ImageStore := {| GetImage := λ _, None |}.

Definition echoTemplate (externalURL : string) : template.Template :=
  {| template.ExternalURL := externalURL;
     template.ExecuteTextString := λ name _, ("text", None) |}.

Definition freshWorld : World := {| now := 1000; sent := []; logs := [] |}.

(** C1. A raw configuration in which a required field is missing or
    coerces to the empty string is rejected: the validator returns nil for
    the configuration (the legacy constructor nil for the notifier) and an
    error whose text names a required field that is empty, the first one in
    the order the fields are read.  The fields are the webhook URL of the
    webhook channel and the URL, the room ID and the resolved API secret
    of the room channel; the legacy room notifier reads url, webexToken
    and roomId. *)
Theorem missing_required_field_rejected :
  (∀ config decryptFunc,
     simplejson.MustString (simplejson.Get (Settings config) "webhook_url") = "" →
     ChannelsWebhook.NewWebexConfig config decryptFunc =
       (None, Some (errors_New "could not find Webex Webhook URL in settings")))
  ∧ (∀ config (decryptFunc : GetDecryptedValueFn),
       let url := simplejson.MustString (simplejson.Get (Settings config) "url") in
       let roomID := simplejson.MustString (simplejson.Get (Settings config) "room_id") in
       let apiSecret :=
         decryptFunc (SecureSettings config) "api_secret"
           (simplejson.MustString (simplejson.Get (Settings config) "api_secret")) in
       url = "" ∨ roomID = "" ∨ apiSecret = "" →
       ∃ text,
         ChannelsRoom.NewWebexConfig config decryptFunc = (None, Some (errors_New text))
         ∧ (url = "" ∧ text = "could not find Webex URL in settings"
            ∨ url ≠ "" ∧ roomID = "" ∧ text = "could not find Webex Room ID in settings"
            ∨ url ≠ "" ∧ roomID ≠ "" ∧ apiSecret = ""
              ∧ text = "could not find Webex API secret in settings"))
  ∧ (∀ model decryptFunc ns,
       let url := simplejson.MustString (simplejson.Get (models.Settings model) "url") in
       let token := simplejson.MustString (simplejson.Get (models.Settings model) "webexToken") in
       let roomId := simplejson.MustString (simplejson.Get (models.Settings model) "roomId") in
       url = "" ∨ token = "" ∨ roomId = "" →
       ∃ reason,
         NotifiersRoom.NewWebexNotifier model decryptFunc ns =
           (None, Some (ValidationError reason))
         ∧ (url = "" ∧ reason = "Could not find url property in settings"
            ∨ url ≠ "" ∧ token = ""
              ∧ reason = "Could not find webexToken property in settings"
            ∨ url ≠ "" ∧ token ≠ "" ∧ roomId = ""
              ∧ reason = "Could not find roomId property in settings"))
  ∧ (∀ model decryptFunc ns,
       simplejson.MustString (simplejson.Get (models.Settings model) "webhook_url") = "" →
       NotifiersWebhook.NewWebexNotifier model decryptFunc ns =
         (None, Some (ValidationError "Could not find webhook_url property in settings"))).
Proof.
  repeat split.
  - intros config decryptFunc H. unfold ChannelsWebhook.NewWebexConfig. by rewrite H.
  - intros config decryptFunc url roomID apiSecret H.
    unfold ChannelsRoom.NewWebexConfig. fold url roomID apiSecret.
    destruct (String.eqb url "") eqn:Hu.
    { apply String.eqb_eq in Hu. eexists; split; [reflexivity|]. by left. }
    apply String.eqb_neq in Hu.
    destruct (String.eqb roomID "") eqn:Hr.
    { apply String.eqb_eq in Hr. eexists; split; [reflexivity|]. right; by left. }
    apply String.eqb_neq in Hr.
    destruct (String.eqb apiSecret "") eqn:Hs.
    { apply String.eqb_eq in Hs. eexists; split; [reflexivity|]. right; by right. }
    apply String.eqb_neq in Hs. by destruct H as [?|[?|?]].
  - intros model decryptFunc ns url token roomId H.
    unfold NotifiersRoom.NewWebexNotifier. fold url token roomId.
    destruct (String.eqb url "") eqn:Hu.
    { apply String.eqb_eq in Hu. eexists; split; [reflexivity|]. by left. }
    apply String.eqb_neq in Hu.
    destruct (String.eqb token "") eqn:Ht.
    { apply String.eqb_eq in Ht. eexists; split; [reflexivity|]. right; by left. }
    apply String.eqb_neq in Ht.
    destruct (String.eqb roomId "") eqn:Hr.
    { apply String.eqb_eq in Hr. eexists; split; [reflexivity|]. right; by right. }
    apply String.eqb_neq in Hr. by destruct H as [?|[?|?]].
  - intros model decryptFunc ns H. unfold NotifiersWebhook.NewWebexNotifier. by rewrite H.
Qed.

Lemma missing_required_field_rejected_witness :
  ChannelsWebhook.NewWebexConfig (channelConfig ∅) plainDecrypt =
    (None, Some (errors_New "could not find Webex Webhook URL in settings"))
  ∧ (∃ text,
       ChannelsRoom.NewWebexConfig
         (channelConfig {[ "url" := JString "https://example.test"; "room_id" := JNumber "7" ]})
         plainDecrypt = (None, Some (errors_New text))
       ∧ text = "could not find Webex Room ID in settings")
  ∧ (∃ reason,
       NotifiersRoom.NewWebexNotifier
         (legacyModel {[ "url" := JString "https://example.test" ]}) plainDecrypt okTransport =
         (None, Some (ValidationError reason))
       ∧ reason = "Could not find webexToken property in settings")
  ∧ NotifiersWebhook.NewWebexNotifier (legacyModel ∅) plainDecrypt okTransport =
      (None, Some (ValidationError "Could not find webhook_url property in settings")).
Proof.
  destruct missing_required_field_rejected as (Hwebhook & Hroom & Hlegacy & Hlegacyhook).
  split; [apply Hwebhook; reflexivity|].
  split.
  { destruct (Hroom (channelConfig {[ "url" := JString "https://example.test";
                                      "room_id" := JNumber "7" ]}) plainDecrypt)
      as (text & Heq & Hcase); [right; left; reflexivity|].
    exists text. split; [exact Heq|].
    destruct Hcase as [[Hu _]|[(_ & _ & Ht)|(_ & Hr & _)]];
      [discriminate Hu | exact Ht | by destruct Hr]. }
  split; [|apply Hlegacyhook; reflexivity].
  destruct (Hlegacy (legacyModel {[ "url" := JString "https://example.test" ]})
              plainDecrypt okTransport)
    as (reason & Heq & Hcase); [right; left; reflexivity|].
  exists reason. split; [exact Heq|].
  destruct Hcase as [[Hu _]|[(_ & _ & Ht)|(_ & Hr & _)]];
    [discriminate Hu | exact Ht | by destruct Hr].
Defined.

(** The validators keep the raw configuration they were given. *)
Lemma Webhook_NewWebexConfig_ok config decryptFunc cfg :
  ChannelsWebhook.NewWebexConfig config decryptFunc = (Some cfg, None) →
  ChannelsWebhook.Config cfg = config
  ∧ ChannelsWebhook.cfgWebhookURL cfg =
      simplejson.MustString (simplejson.Get (Settings config) "webhook_url")
  ∧ ChannelsWebhook.cfgWebhookURL cfg ≠ ""
  ∧ ChannelsWebhook.cfgContent cfg =
      simplejson.MustStringOr (simplejson.Get (Settings config) "message")
        defaultMessageLiteral.
Proof.
  unfold ChannelsWebhook.NewWebexConfig.
  destruct (String.eqb _ "") eqn:Hu; [discriminate|].
  intros [= <-]. cbn. by apply String.eqb_neq in Hu.
Qed.

Lemma Room_NewWebexConfig_ok config decryptFunc cfg :
  ChannelsRoom.NewWebexConfig config decryptFunc = (Some cfg, None) →
  ChannelsRoom.Config cfg = config
  ∧ ChannelsRoom.cfgURL cfg = simplejson.MustString (simplejson.Get (Settings config) "url")
  ∧ ChannelsRoom.cfgRoomID cfg =
      simplejson.MustString (simplejson.Get (Settings config) "room_id")
  ∧ ChannelsRoom.cfgAPISecret cfg =
      decryptFunc (SecureSettings config) "api_secret"
        (simplejson.MustString (simplejson.Get (Settings config) "api_secret"))
  ∧ ChannelsRoom.cfgURL cfg ≠ "" ∧ ChannelsRoom.cfgRoomID cfg ≠ ""
  ∧ ChannelsRoom.cfgAPISecret cfg ≠ "".
Proof.
  unfold ChannelsRoom.NewWebexConfig.
  destruct (String.eqb _ "") eqn:Hu; [discriminate|].
  destruct (String.eqb (simplejson.MustString (simplejson.Get _ "room_id")) "") eqn:Hr;
    [discriminate|].
  destruct (String.eqb (decryptFunc _ _ _) "") eqn:Hs; [discriminate|].
  intros [= <-]. cbn.
  apply String.eqb_neq in Hu, Hr, Hs. done.
Qed.

(** A rejected configuration reaches the caller of the factory as a
    receiverInitError with the validator's text, and no notifier. *)
Lemma WebexFactory_rejects :
  (∀ fc text,
     ChannelsWebhook.NewWebexConfig (ChannelsWebhook.fcConfig fc)
       (ChannelsWebhook.fcDecryptFunc fc) = (None, Some (errors_New text)) →
     ChannelsWebhook.WebexFactory fc =
       (None, Some (receiverInitError text (ChannelsWebhook.fcConfig fc))))
  ∧ (∀ fc text,
       ChannelsRoom.NewWebexConfig (ChannelsRoom.fcConfig fc)
         (ChannelsRoom.fcDecryptFunc fc) = (None, Some (errors_New text)) →
       ChannelsRoom.WebexFactory fc =
         (None, Some (receiverInitError text (ChannelsRoom.fcConfig fc)))).
Proof.
  split; intros fc text H.
  - unfold ChannelsWebhook.WebexFactory. by rewrite H.
  - unfold ChannelsRoom.WebexFactory. by rewrite H.
Qed.

(** ** Resolve suppression *)

(** C2. For every notifier the factories construct, SendResolved is the
    negation of the DisableResolveMessage flag of the configuration it was
    built from; it is false exactly when the flag is true. *)
Theorem SendResolved_negates_flag :
  (∀ fc tn,
     ChannelsWebhook.WebexFactory fc = (Some tn, None) →
     ChannelsWebhook.SendResolved tn =
       negb (DisableResolveMessage (ChannelsWebhook.fcConfig fc))
     ∧ (ChannelsWebhook.SendResolved tn = false
        ↔ DisableResolveMessage (ChannelsWebhook.fcConfig fc) = true))
  ∧ (∀ fc tn,
       ChannelsRoom.WebexFactory fc = (Some tn, None) →
       ChannelsRoom.SendResolved tn =
         negb (DisableResolveMessage (ChannelsRoom.fcConfig fc))
       ∧ (ChannelsRoom.SendResolved tn = false
          ↔ DisableResolveMessage (ChannelsRoom.fcConfig fc) = true)).
Proof.
  split; intros fc tn.
  - unfold ChannelsWebhook.WebexFactory.
    destruct (ChannelsWebhook.NewWebexConfig _ _) as [[cfg|] [err|]] eqn:Hcfg;
      try discriminate.
    intros [= <-]. apply Webhook_NewWebexConfig_ok in Hcfg as (Hc & _).
    unfold ChannelsWebhook.SendResolved. cbn. rewrite Hc.
    split; [reflexivity|]. by destruct (DisableResolveMessage _).
  - unfold ChannelsRoom.WebexFactory.
    destruct (ChannelsRoom.NewWebexConfig _ _) as [[cfg|] [err|]] eqn:Hcfg;
      try discriminate.
    intros [= <-]. apply Room_NewWebexConfig_ok in Hcfg as (Hc & _).
    unfold ChannelsRoom.SendResolved. cbn. rewrite Hc.
    split; [reflexivity|]. by destruct (DisableResolveMessage _).
Qed.

Definition suppressingConfig (settings : gmap string Json) : NotificationChannelConfig :=
  {| UID := "uid-2"; Name := "pager"; Type_ := "webex"; DisableResolveMessage := true;
     Settings := JObject settings; SecureSettings := ∅ |}.

Definition webhookFactoryConfig : ChannelsWebhook.FactoryConfig :=
  {| ChannelsWebhook.fcConfig :=
       suppressingConfig {[ "webhook_url" := JString "https://example.test/hook" ]};
     ChannelsWebhook.fcNotificationService := okTransport;
     ChannelsWebhook.fcDecryptFunc := plainDecrypt;
     ChannelsWebhook.fcImageStore := noImages;
     ChannelsWebhook.fcTemplate := echoTemplate "https://grafana.test" |}.

Definition roomFactoryConfig : ChannelsRoom.FactoryConfig :=
  {| ChannelsRoom.fcConfig :=
       channelConfig {[ "url" := JString "https://example.test";
                        "room_id" := JString "R1";
                        "api_secret" := JString "tok" ]};
     ChannelsRoom.fcNotificationService := okTransport;
     ChannelsRoom.fcDecryptFunc := plainDecrypt;
     ChannelsRoom.fcImageStore := noImages;
     ChannelsRoom.fcTemplate := echoTemplate "https://grafana.test" |}.

Lemma SendResolved_negates_flag_witness :
  (∃ tn, ChannelsWebhook.WebexFactory webhookFactoryConfig = (Some tn, None)
         ∧ ChannelsWebhook.SendResolved tn = false)
  ∧ (∃ tn, ChannelsRoom.WebexFactory roomFactoryConfig = (Some tn, None)
           ∧ ChannelsRoom.SendResolved tn = true).
Proof.
  destruct SendResolved_negates_flag as [Hwebhook Hroom].
  split; eexists; (split; [reflexivity|]).
  - exact (proj1 (Hwebhook webhookFactoryConfig _ eq_refl)).
  - exact (proj1 (Hroom roomFactoryConfig _ eq_refl)).
Defined.

(** ** State symbol *)

(** C3. When every alert of the batch is resolved at the time Notify reads
    the clock, the one request it sends carries a message that starts with
    the check mark U+2705 and a space; when at least one alert is firing,
    the message starts with the warning sign U+26A0 U+FE0F and a space.
    Both revisions of webex.go. *)
Theorem state_symbol_follows_batch_status :
  (∀ tn alerts w,
     Forall (λ a, types.ResolvedAt a (now w) = true) alerts →
     ChannelsWebhook.stateEmoji (types.StatusAt alerts (now w)) =
       utf8.EncodeRune 0x2705 +:+ " "
     ∧ ∃ rest, sent (ChannelsWebhook.Notify tn alerts w).2 =
          sent w ++ [ChannelsWebhook.request tn (utf8.EncodeRune 0x2705 +:+ " " +:+ rest)])
  ∧ (∀ tn alerts w,
       Exists (λ a, types.ResolvedAt a (now w) = false) alerts →
       ChannelsWebhook.stateEmoji (types.StatusAt alerts (now w)) =
         (utf8.EncodeRune 0x26A0 +:+ utf8.EncodeRune 0xFE0F) +:+ " "
       ∧ ∃ rest, sent (ChannelsWebhook.Notify tn alerts w).2 =
            sent w ++ [ChannelsWebhook.request tn
                         ((utf8.EncodeRune 0x26A0 +:+ utf8.EncodeRune 0xFE0F) +:+ " " +:+ rest)])
  ∧ (∀ tn alerts w,
       Forall (λ a, types.ResolvedAt a (now w) = true) alerts →
       ChannelsRoom.stateEmoji (types.StatusAt alerts (now w)) =
         utf8.EncodeRune 0x2705 +:+ " "
       ∧ ∃ rest, sent (ChannelsRoom.Notify tn alerts w).2 =
            sent w ++ [ChannelsRoom.request tn (utf8.EncodeRune 0x2705 +:+ " " +:+ rest)])
  ∧ (∀ tn alerts w,
       Exists (λ a, types.ResolvedAt a (now w) = false) alerts →
       ChannelsRoom.stateEmoji (types.StatusAt alerts (now w)) =
         (utf8.EncodeRune 0x26A0 +:+ utf8.EncodeRune 0xFE0F) +:+ " "
       ∧ ∃ rest, sent (ChannelsRoom.Notify tn alerts w).2 =
            sent w ++ [ChannelsRoom.request tn
                         ((utf8.EncodeRune 0x26A0 +:+ utf8.EncodeRune 0xFE0F) +:+ " " +:+ rest)]).
Proof.
  split; [|split; [|split]]; intros tn alerts w H; (split; [|]).
  - by rewrite (StatusAt_resolved _ _ H).
  - destruct (Webhook_Notify_run tn alerts w) as (_ & -> & _).
    destruct (Webhook_postedMessage_shape tn alerts (now w)) as (t & c & l & ->).
    rewrite (StatusAt_resolved _ _ H). eexists.
    unfold ChannelsWebhook.stateEmoji, checkMark. by rewrite !append_assoc.
  - by rewrite (StatusAt_firing _ _ H).
  - destruct (Webhook_Notify_run tn alerts w) as (_ & -> & _).
    destruct (Webhook_postedMessage_shape tn alerts (now w)) as (t & c & l & ->).
    rewrite (StatusAt_firing _ _ H). eexists.
    unfold ChannelsWebhook.stateEmoji, warningSign. by rewrite !append_assoc.
  - by rewrite (StatusAt_resolved _ _ H).
  - destruct (Room_Notify_run tn alerts w) as (_ & -> & _).
    destruct (Room_postedMessage_shape tn alerts (now w)) as (t & c & l & ->).
    rewrite (StatusAt_resolved _ _ H). eexists.
    unfold ChannelsRoom.stateEmoji, checkMark. by rewrite !append_assoc.
  - by rewrite (StatusAt_firing _ _ H).
  - destruct (Room_Notify_run tn alerts w) as (_ & -> & _).
    destruct (Room_postedMessage_shape tn alerts (now w)) as (t & c & l & ->).
    rewrite (StatusAt_firing _ _ H). eexists.
    unfold ChannelsRoom.stateEmoji, warningSign. by rewrite !append_assoc.
Qed.

Definition resolvedAlert : types.Alert :=
  {| types.Labels := {[ "alertname" := "cpu" ]}; types.Annotations := ∅;
     types.EndsAt := Some 900%Z |}.

Definition firingAlert : types.Alert :=
  {| types.Labels := {[ "alertname" := "disk" ]}; types.Annotations := ∅;
     types.EndsAt := None |}.

Definition webhookNotifier : ChannelsWebhook.WebexNotifier :=
  ChannelsWebhook.NewWebexNotifier
    {| ChannelsWebhook.Config :=
         channelConfig {[ "webhook_url" := JString "https://example.test/hook" ]};
       ChannelsWebhook.cfgWebhookURL := "https://example.test/hook";
       ChannelsWebhook.cfgContent := defaultMessageLiteral |}
    noImages okTransport (echoTemplate "https://grafana.test").

Definition roomNotifier : ChannelsRoom.WebexNotifier :=
  ChannelsRoom.NewWebexNotifier
    {| ChannelsRoom.Config :=
         channelConfig {[ "url" := JString "https://example.test";
                          "room_id" := JString "R1"; "api_secret" := JString "tok" ]};
       ChannelsRoom.cfgURL := "https://example.test";
       ChannelsRoom.cfgRoomID := "R1";
       ChannelsRoom.cfgAPISecret := "tok" |}
    noImages okTransport (echoTemplate "https://grafana.test").

Lemma state_symbol_follows_batch_status_witness :
  ChannelsWebhook.stateEmoji (types.StatusAt [resolvedAlert; resolvedAlert] 1000) =
    utf8.EncodeRune 0x2705 +:+ " "
  ∧ ChannelsWebhook.stateEmoji (types.StatusAt [resolvedAlert; firingAlert] 1000) =
      (utf8.EncodeRune 0x26A0 +:+ utf8.EncodeRune 0xFE0F) +:+ " "
  ∧ ChannelsRoom.stateEmoji (types.StatusAt [] 1000) = utf8.EncodeRune 0x2705 +:+ " "
  ∧ ChannelsRoom.stateEmoji (types.StatusAt [firingAlert] 1000) =
      (utf8.EncodeRune 0x26A0 +:+ utf8.EncodeRune 0xFE0F) +:+ " ".
Proof.
  destruct state_symbol_follows_batch_status as (H1 & H2 & H3 & H4).
  split; [|split; [|split]].
  - apply (H1 webhookNotifier [resolvedAlert; resolvedAlert] freshWorld).
    repeat constructor.
  - apply (H2 webhookNotifier [resolvedAlert; firingAlert] freshWorld).
    right. left. reflexivity.
  - apply (H3 roomNotifier [] freshWorld). constructor.
  - apply (H4 roomNotifier [firingAlert] freshWorld). left. reflexivity.
Defined.

(** ** Delivery *)

(** C6. Every call of Notify hands exactly one request to the injected
    transport, a POST; it returns (false, err) when the transport answers
    with the error err and (true, nil) when it answers without error, and
    nothing is sent again.  Both revisions of webex.go. *)
Theorem Notify_sends_once_and_reports :
  (∀ tn alerts w,
     ∃ cmd,
       sent (ChannelsWebhook.Notify tn alerts w).2 = sent w ++ [cmd]
       ∧ models.HttpMethod cmd = "POST"
       ∧ (ChannelsWebhook.Notify tn alerts w).1 =
           match notifications.answer (ChannelsWebhook.ns tn) (sent w) cmd with
           | Some err => (false, Some err)
           | None => (true, None)
           end)
  ∧ (∀ tn alerts w,
       ∃ cmd,
         sent (ChannelsRoom.Notify tn alerts w).2 = sent w ++ [cmd]
         ∧ models.HttpMethod cmd = "POST"
         ∧ (ChannelsRoom.Notify tn alerts w).1 =
             match notifications.answer (ChannelsRoom.ns tn) (sent w) cmd with
             | Some err => (false, Some err)
             | None => (true, None)
             end).
Proof.
  split; intros tn alerts w.
  - destruct (Webhook_Notify_run tn alerts w) as (Hres & Hsent & _).
    eexists. split; [exact Hsent|]. split; [reflexivity|exact Hres].
  - destruct (Room_Notify_run tn alerts w) as (Hres & Hsent & _).
    eexists. split; [exact Hsent|]. split; [reflexivity|exact Hres].
Qed.

(** The two outcomes on concrete transports. *)
Example Notify_transport_error :
  (ChannelsRoom.Notify
     (ChannelsRoom.NewWebexNotifier
        {| ChannelsRoom.Config := channelConfig ∅; ChannelsRoom.cfgURL := "https://example.test";
           ChannelsRoom.cfgRoomID := "R1"; ChannelsRoom.cfgAPISecret := "tok" |}
        noImages failingTransport (echoTemplate "https://grafana.test"))
     [firingAlert] freshWorld).1 = (false, Some (errors_New "connection refused")).
Proof. reflexivity. Qed.

Example Notify_transport_success :
  (ChannelsRoom.Notify roomNotifier [firingAlert] freshWorld).1 = (true, None).
Proof. reflexivity. Qed.

(** ** Payloads *)

Lemma Marshal_JObject (fields : gmap string Json) :
  json.Marshal (JObject fields) =
    "{" +:+ Join (map (λ kv, json.quote kv.1 +:+ ":" +:+ kv.2)
                    (sortByKey (map_fold (λ k v acc, (k, json.Marshal v) :: acc) [] fields)))
                 "," +:+ "}".
Proof. reflexivity. Qed.

Lemma members_roomId_markdown {A B} (g : A → B) (room message : A) :
  map_fold (λ k v acc, (k, g v) :: acc) []
    (<["roomId" := room]> (<["markdown" := message]> (∅ : gmap string A))) =
  [("markdown", g message); ("roomId", g room)].
Proof. vm_compute. reflexivity. Qed.

(** The wire form of the room object: keys in sorted order. *)
Lemma Marshal_roomId_markdown (room message : string) :
  json.Marshal (JObject (<["roomId" := JString room]> (<["markdown" := JString message]> ∅))) =
    "{" +:+ json.quote "markdown" +:+ ":" +:+ json.quote message +:+ ","
    +:+ json.quote "roomId" +:+ ":" +:+ json.quote room +:+ "}".
Proof.
  rewrite Marshal_JObject, (members_roomId_markdown json.Marshal).
  cbn [sortByKey foldr insertByKey fst snd].
  assert (String.leb "markdown" "roomId" = true) as -> by reflexivity.
  cbn [map Join fst snd json.Marshal]. by rewrite !append_assoc.
Qed.

Lemma Marshal_markdown (message : string) :
  json.Marshal (simplejson.Set_ simplejson.New "markdown" (JString message)) =
    "{" +:+ json.quote "markdown" +:+ ":" +:+ json.quote message +:+ "}".
Proof.
  unfold simplejson.Set_, simplejson.New. rewrite Marshal_JObject.
  assert (∀ g : Json → string,
            map_fold (λ k v acc, (k, g v) :: acc) []
              (<["markdown" := JString message]> (∅ : gmap string Json)) =
            [("markdown", g (JString message))]) as -> by (intros g; vm_compute; reflexivity).
  cbn [sortByKey foldr insertByKey map Join fst snd json.Marshal].
  by rewrite !append_assoc.
Qed.

Lemma Sprintf_Bearer (secret : string) :
  fmt.Sprintf "Bearer %s" [secret] = "Bearer " +:+ secret.
Proof. cbn. by rewrite append_nil_r. Qed.

Lemma room_object_keys (room message : Json) :
  dom (<["roomId" := room]> (<["markdown" := message]> (∅ : gmap string Json)))
  = ({[ "roomId"; "markdown" ]} : gset string).
Proof. set_solver. Qed.

(** What one call of the legacy Notify does to the world. *)
Lemma LegacyRoom_Notify_run wn evalContext w :
  let cmd := NotifiersRoom.request wn (NotifiersRoom.buildMessage evalContext) in
  (NotifiersRoom.Notify wn evalContext w).1 =
    notifications.answer (alerting.NotificationService (NotifiersRoom.NotifierBase wn))
      (sent w) cmd
  ∧ sent (NotifiersRoom.Notify wn evalContext w).2 = sent w ++ [cmd].
Proof.
  unfold NotifiersRoom.Notify, notifications.SendWebhookSync, logf, mbind, mret,
    M_bind, M_ret; cbn.
  destruct (notifications.answer _ _ _); cbn; done.
Qed.

Lemma LegacyWebhook_Notify_run wn evalContext w :
  let cmd := NotifiersWebhook.request wn (NotifiersWebhook.buildMessage evalContext) in
  (NotifiersWebhook.Notify wn evalContext w).1 =
    notifications.answer (alerting.NotificationService (NotifiersWebhook.NotifierBase wn))
      (sent w) cmd
  ∧ sent (NotifiersWebhook.Notify wn evalContext w).2 = sent w ++ [cmd].
Proof.
  unfold NotifiersWebhook.Notify, notifications.SendWebhookSync, logf, mbind, mret,
    M_bind, M_ret; cbn.
  destruct (notifications.answer _ _ _); cbn; done.
Qed.

Lemma LegacyRoom_NewWebexNotifier_ok model decryptFunc ns wn :
  NotifiersRoom.NewWebexNotifier model decryptFunc ns = (Some wn, None) →
  NotifiersRoom.URL wn = simplejson.MustString (simplejson.Get (models.Settings model) "url")
  ∧ NotifiersRoom.ApiToken wn =
      simplejson.MustString (simplejson.Get (models.Settings model) "webexToken")
  ∧ NotifiersRoom.RoomId wn =
      simplejson.MustString (simplejson.Get (models.Settings model) "roomId")
  ∧ NotifiersRoom.NotifierBase wn = alerting.NewNotifierBase model ns.
Proof.
  unfold NotifiersRoom.NewWebexNotifier.
  destruct (String.eqb (simplejson.MustString (simplejson.Get _ "url")) "");
    [discriminate|].
  destruct (String.eqb (simplejson.MustString (simplejson.Get _ "webexToken")) "");
    [discriminate|].
  destruct (String.eqb (simplejson.MustString (simplejson.Get _ "roomId")) "");
    [discriminate|].
  by intros [= <-].
Qed.

(** C4. A room-API configuration that validates (url, room_id and the
    resolved api_secret all non-empty) yields, on every Notify, one request
    whose body is the JSON object with exactly the keys roomId, holding
    the configured room ID, and markdown, holding the rendered message,
    and whose headers are Authorization: Bearer followed by the resolved
    secret.  The legacy room notifier does the same with roomId and
    webexToken. *)
Theorem room_payload_and_bearer_header :
  (∀ config (decryptFunc : GetDecryptedValueFn) cfg images ns t alerts w,
     ChannelsRoom.NewWebexConfig config decryptFunc = (Some cfg, None) →
     let tn := ChannelsRoom.NewWebexNotifier cfg images ns t in
     let roomID := simplejson.MustString (simplejson.Get (Settings config) "room_id") in
     let secret :=
       decryptFunc (SecureSettings config) "api_secret"
         (simplejson.MustString (simplejson.Get (Settings config) "api_secret")) in
     let message := ChannelsRoom.postedMessage tn alerts (now w) in
     ∃ cmd (object : gmap string Json),
       sent (ChannelsRoom.Notify tn alerts w).2 = sent w ++ [cmd]
       ∧ models.Body cmd = json.Marshal (JObject object)
       ∧ dom object = {[ "roomId"; "markdown" ]}
       ∧ object !! "roomId" = Some (JString roomID)
       ∧ object !! "markdown" = Some (JString message)
       ∧ models.Body cmd =
           "{" +:+ json.quote "markdown" +:+ ":" +:+ json.quote message +:+ ","
           +:+ json.quote "roomId" +:+ ":" +:+ json.quote roomID +:+ "}"
       ∧ models.HttpHeader cmd = {[ "Authorization" := "Bearer " +:+ secret ]})
  ∧ (∀ model decryptFunc ns wn evalContext w,
       NotifiersRoom.NewWebexNotifier model decryptFunc ns = (Some wn, None) →
       let roomId := simplejson.MustString (simplejson.Get (models.Settings model) "roomId") in
       let token := simplejson.MustString (simplejson.Get (models.Settings model) "webexToken") in
       let message := NotifiersRoom.buildMessage evalContext in
       ∃ cmd (object : gmap string Json),
         sent (NotifiersRoom.Notify wn evalContext w).2 = sent w ++ [cmd]
         ∧ models.Body cmd = json.Marshal (JObject object)
         ∧ dom object = {[ "roomId"; "markdown" ]}
         ∧ object !! "roomId" = Some (JString roomId)
         ∧ object !! "markdown" = Some (JString message)
         ∧ models.Body cmd =
             "{" +:+ json.quote "markdown" +:+ ":" +:+ json.quote message +:+ ","
             +:+ json.quote "roomId" +:+ ":" +:+ json.quote roomId +:+ "}"
         ∧ models.HttpHeader cmd = {[ "Authorization" := "Bearer " +:+ token ]}).
Proof.
  split.
  - intros config decryptFunc cfg images ns t alerts w Hcfg tn roomID secret message.
    apply Room_NewWebexConfig_ok in Hcfg as (_ & _ & Hroom & Hsecret & _).
    destruct (Room_Notify_run tn alerts w) as (_ & Hsent & _).
    exists (ChannelsRoom.request tn message), (ChannelsRoom.body tn message).
    split; [exact Hsent|]. split; [reflexivity|].
    split; [apply room_object_keys|].
    unfold ChannelsRoom.request, ChannelsRoom.body. cbn -[json.Marshal fmt.Sprintf].
    rewrite Hroom, Hsecret. fold roomID secret.
    split; [reflexivity|]. split; [reflexivity|].
    split; [apply Marshal_roomId_markdown|]. by rewrite Sprintf_Bearer.
  - intros model decryptFunc ns wn evalContext w Hwn roomId token message.
    apply LegacyRoom_NewWebexNotifier_ok in Hwn as (_ & Htoken & Hroom & _).
    destruct (LegacyRoom_Notify_run wn evalContext w) as (_ & Hsent).
    exists (NotifiersRoom.request wn message), (NotifiersRoom.body wn message).
    split; [exact Hsent|]. split; [reflexivity|].
    split; [apply room_object_keys|].
    unfold NotifiersRoom.request, NotifiersRoom.body. cbn -[json.Marshal fmt.Sprintf].
    rewrite Hroom, Htoken. fold roomId token.
    split; [reflexivity|]. split; [reflexivity|].
    split; [apply Marshal_roomId_markdown|]. by rewrite Sprintf_Bearer.
Qed.

(** The scenario of the specification: url https://example.test, room_id
    R1, api_secret tok. *)
Definition scenarioConfig : NotificationChannelConfig :=
  channelConfig {[ "url" := JString "https://example.test";
                   "room_id" := JString "R1";
                   "api_secret" := JString "tok" ]}.

Definition scenarioModel : models.AlertNotification :=
  legacyModel {[ "url" := JString "https://example.test";
                 "roomId" := JString "R1";
                 "webexToken" := JString "tok" ]}.

Definition alertingContext (state : models.AlertStateType) : alerting.EvalContext :=
  {| alerting.Rule_ := {| alerting.ID := 7; alerting.Name := "cpu";
                          alerting.Message := "load is high"; alerting.State := state |};
     alerting.GetNotificationTitle := "[Alerting] cpu" |}.

Lemma room_payload_and_bearer_header_witness :
  (∃ cfg cmd,
     ChannelsRoom.NewWebexConfig scenarioConfig plainDecrypt = (Some cfg, None)
     ∧ sent (ChannelsRoom.Notify
               (ChannelsRoom.NewWebexNotifier cfg noImages okTransport
                  (echoTemplate "https://grafana.test")) [firingAlert] freshWorld).2 = [cmd]
     ∧ models.HttpHeader cmd = {[ "Authorization" := "Bearer tok" ]})
  ∧ (∃ wn cmd,
       NotifiersRoom.NewWebexNotifier scenarioModel plainDecrypt okTransport = (Some wn, None)
       ∧ sent (NotifiersRoom.Notify wn (alertingContext models.AlertStateAlerting)
                 freshWorld).2 = [cmd]
       ∧ models.HttpHeader cmd = {[ "Authorization" := "Bearer tok" ]}).
Proof.
  destruct room_payload_and_bearer_header as [Hroom Hlegacy].
  split.
  - eexists.
    destruct (Hroom scenarioConfig plainDecrypt _ noImages okTransport
                (echoTemplate "https://grafana.test") [firingAlert] freshWorld eq_refl)
      as (cmd & object & Hsent & _ & _ & _ & _ & _ & Hheader).
    exists cmd. split; [reflexivity|]. split; [exact Hsent | exact Hheader].
  - eexists.
    destruct (Hlegacy scenarioModel plainDecrypt okTransport _
                (alertingContext models.AlertStateAlerting) freshWorld eq_refl)
      as (cmd & object & Hsent & _ & _ & _ & _ & _ & Hheader).
    exists cmd. split; [reflexivity|]. split; [exact Hsent | exact Hheader].
Defined.

(** The request of the scenario, byte for byte. *)
Example scenario_room_request :
  sent (ChannelsRoom.Notify roomNotifier [firingAlert] freshWorld).2 =
    [{| models.Url := "https://example.test";
        models.Body :=
          "{" +:+ dq +:+ "markdown" +:+ dq +:+ ":" +:+ dq
          +:+ utf8.EncodeRune 0x26A0 +:+ utf8.EncodeRune 0xFE0F
          +:+ " text\n\n*Message:*\ntext\n*URL:* https:/grafana.test/alerting/list\n"
          +:+ dq +:+ "," +:+ dq +:+ "roomId" +:+ dq +:+ ":" +:+ dq +:+ "R1" +:+ dq +:+ "}";
        models.HttpMethod := "POST";
        models.ContentType := "application/json; charset=utf-8";
        models.HttpHeader := {[ "Authorization" := "Bearer tok" ]} |}].
Proof. vm_compute. reflexivity. Qed.

(** ** The secret *)










(** ** The webhook payload *)

Lemma append_not_empty_r (a b : string) : b ≠ "" → a +:+ b ≠ "".
Proof. intros Hb. destruct a; [exact Hb | by rewrite append_cons]. Qed.

(** The legacy messages always have content: the fixed labels are there
    whatever the rule says. *)
Lemma legacy_message_not_empty evalContext :
  NotifiersWebhook.buildMessage evalContext ≠ ""
  ∧ NotifiersRoom.buildMessage evalContext ≠ "".
Proof.
  split.
  - unfold NotifiersWebhook.buildMessage.
    change (fmt.Sprintf _ _) with
      (NotifiersWebhook.stateEmoji (alerting.State (alerting.Rule_ evalContext))
       +:+ alerting.GetNotificationTitle evalContext +:+ nl +:+ nl +:+ "*State:* "
       +:+ alerting.Name (alerting.Rule_ evalContext) +:+ nl +:+ "*Message:* "
       +:+ alerting.Message (alerting.Rule_ evalContext) +:+ nl).
    do 2 apply append_not_empty_r. done.
  - unfold NotifiersRoom.buildMessage.
    change (fmt.Sprintf _ _) with
      (NotifiersRoom.stateEmoji (alerting.State (alerting.Rule_ evalContext))
       +:+ alerting.GetNotificationTitle evalContext +:+ nl +:+ nl +:+ "*State:* "
       +:+ alerting.Name (alerting.Rule_ evalContext) +:+ nl +:+ "*Message:* "
       +:+ alerting.Message (alerting.Rule_ evalContext) +:+ nl).
    do 2 apply append_not_empty_r. done.
Qed.

(** The legacy webhook notifier built from the settings of its own test:
    only webhook_url. *)
Definition testModel : models.AlertNotification :=
  legacyModel {[ "webhook_url" := JString "https://webexapis.com/v1/webhooks/incoming/room-id" ]}.

Definition testNotifier : NotifiersWebhook.WebexNotifier :=
  {| NotifiersWebhook.NotifierBase := alerting.NewNotifierBase testModel okTransport;
     NotifiersWebhook.WebhookURL := "https://webexapis.com/v1/webhooks/incoming/room-id";
     NotifiersWebhook.Content := "";
     NotifiersWebhook.log := "alerting.notifier.webex" |}.

(** C7.  What the two webhook revisions put in the body.  The revision
    of webex.go always emits the markdown key and no header.  The legacy
    notifier attaches no header either, but emits the markdown key
    exactly when the configured content setting is non-empty, whatever the
    message is: built from the settings of its own test (webhook_url only)
    it posts the empty object although the message has content. *)
Theorem legacy_webhook_body_gated_on_content_setting :
  (∀ tn message,
     models.Body (ChannelsWebhook.request tn message) =
       "{" +:+ json.quote "markdown" +:+ ":" +:+ json.quote message +:+ "}"
     ∧ models.HttpHeader (ChannelsWebhook.request tn message) = ∅)
  ∧ (∀ wn message,
       models.Body (NotifiersWebhook.request wn message) =
         (if String.eqb (NotifiersWebhook.Content wn) "" then "{}"
          else "{" +:+ json.quote "markdown" +:+ ":" +:+ json.quote message +:+ "}")
       ∧ models.HttpHeader (NotifiersWebhook.request wn message) = ∅)
  ∧ NotifiersWebhook.NewWebexNotifier testModel plainDecrypt okTransport =
      (Some testNotifier, None)
  ∧ NotifiersWebhook.buildMessage (alertingContext models.AlertStateAlerting) =
      utf8.EncodeRune 0x26A0 +:+ utf8.EncodeRune 0xFE0F +:+ " [Alerting] cpu" +:+ nl +:+ nl
      +:+ "*State:* cpu" +:+ nl +:+ "*Message:* load is high" +:+ nl
  ∧ NotifiersWebhook.Notify testNotifier (alertingContext models.AlertStateAlerting)
      freshWorld =
      (None,
       {| now := 1000;
          sent := [{| models.Url := "https://webexapis.com/v1/webhooks/incoming/room-id";
                      models.Body := "{}";
                      models.HttpMethod := "POST";
                      models.ContentType := "application/json; charset=utf-8";
                      models.HttpHeader := ∅ |}];
          logs := [{| level := LvlInfo; msg := "Executing webex notification";
                      ctx := [LogString "ruleId"; LogInt 7; LogString "notification";
                              LogString "ops"] |}] |}).
Proof.
  split; [|split; [|split; [|split]]].
  - intros tn message. split; [apply Marshal_markdown | reflexivity].
  - intros wn message. split; [|reflexivity].
    unfold NotifiersWebhook.request, NotifiersWebhook.body. cbn [models.Body].
    destruct (String.eqb (NotifiersWebhook.Content wn) ""); cbn [negb].
    + reflexivity.
    + apply Marshal_markdown.
  - reflexivity.
  - vm_compute. reflexivity.
  - vm_compute. reflexivity.
Qed.

(** ** The default of the message template *)

(** C8, as stated, fails on the legacy webhook notifier: with the content
    setting absent the notifier is built and its Content is the empty
    string, not the default template. *)
Lemma legacy_content_defaults_to_empty :
  ∃ wn,
    NotifiersWebhook.NewWebexNotifier testModel plainDecrypt okTransport = (Some wn, None)
    ∧ simplejson.Get (models.Settings testModel) "content" = JNull
    ∧ NotifiersWebhook.Content wn = ""
    ∧ NotifiersWebhook.Content wn ≠ defaultMessageLiteral.
Proof.
  exists testNotifier. split; [reflexivity|]. split; [reflexivity|].
  split; [reflexivity|]. discriminate.
Qed.

(** C8, amended.  In webex.go a configuration with a webhook URL and no
    message setting (absent or null) validates and its Content is the
    default template [{{ template "default.message" . }}], which is not
    empty.  The legacy notifier has no default: with a webhook URL and no
    content setting it is built with the empty Content. *)
Theorem absent_message_template_default :
  ∀ (config : NotificationChannelConfig) (decryptFunc : GetDecryptedValueFn),
    simplejson.MustString (simplejson.Get (Settings config) "webhook_url") ≠ "" →
    simplejson.Get (Settings config) "message" = JNull →
    (∃ cfg,
       ChannelsWebhook.NewWebexConfig config decryptFunc = (Some cfg, None)
       ∧ ChannelsWebhook.cfgContent cfg =
           "{{ template " +:+ dq +:+ "default.message" +:+ dq +:+ " . }}"
       ∧ ChannelsWebhook.cfgContent cfg ≠ "")
    ∧ (∀ (model : models.AlertNotification) ns,
         simplejson.MustString (simplejson.Get (models.Settings model) "webhook_url") ≠ "" →
         simplejson.Get (models.Settings model) "content" = JNull →
         ∃ wn,
           NotifiersWebhook.NewWebexNotifier model decryptFunc ns = (Some wn, None)
           ∧ NotifiersWebhook.Content wn = "").
Proof.
  intros config decryptFunc Hurl Hmsg. split.
  - unfold ChannelsWebhook.NewWebexConfig.
    rewrite (eqb_empty_false _ Hurl), Hmsg.
    eexists. split; [reflexivity|]. cbn. split; [reflexivity | discriminate].
  - intros model ns Hurl' Hcontent. unfold NotifiersWebhook.NewWebexNotifier.
    rewrite (eqb_empty_false _ Hurl'), Hcontent.
    eexists. split; reflexivity.
Qed.

Lemma absent_message_template_default_witness :
  (∃ cfg,
     ChannelsWebhook.NewWebexConfig
       (channelConfig {[ "webhook_url" := JString "https://example.test/hook" ]})
       plainDecrypt = (Some cfg, None)
     ∧ ChannelsWebhook.cfgContent cfg =
         "{{ template " +:+ dq +:+ "default.message" +:+ dq +:+ " . }}"
     ∧ ChannelsWebhook.cfgContent cfg ≠ "")
  ∧ (∃ wn,
       NotifiersWebhook.NewWebexNotifier testModel plainDecrypt okTransport = (Some wn, None)
       ∧ NotifiersWebhook.Content wn = "").
Proof.
  assert (simplejson.MustString
            (simplejson.Get
               (Settings (channelConfig
                            {[ "webhook_url" := JString "https://example.test/hook" ]}))
               "webhook_url") ≠ "") as Hurl by discriminate.
  destruct (absent_message_template_default
              (channelConfig {[ "webhook_url" := JString "https://example.test/hook" ]})
              plainDecrypt Hurl eq_refl) as [Hcfg Hlegacy].
  split; [exact Hcfg|].
  apply (Hlegacy testModel okTransport); [discriminate | reflexivity].
Defined.

(** ** The link to the alert list *)

Lemma Contains_prefix3 (a b c rest : string) :
  Contains (a +:+ b +:+ c +:+ rest) (a +:+ b +:+ c) = true.
Proof.
  replace (a +:+ b +:+ c +:+ rest) with ((a +:+ b +:+ c) +:+ rest)
    by (by rewrite !append_assoc).
  apply Contains_prefix.
Qed.

Lemma LegacyWebhook_buildMessage_shape evalContext :
  NotifiersWebhook.buildMessage evalContext =
    NotifiersWebhook.stateEmoji (alerting.State (alerting.Rule_ evalContext))
    +:+ alerting.GetNotificationTitle evalContext +:+ nl +:+ nl +:+ "*State:* "
    +:+ alerting.Name (alerting.Rule_ evalContext) +:+ nl +:+ "*Message:* "
    +:+ alerting.Message (alerting.Rule_ evalContext) +:+ nl.
Proof. reflexivity. Qed.

Lemma LegacyRoom_buildMessage_shape evalContext :
  NotifiersRoom.buildMessage evalContext =
    NotifiersRoom.stateEmoji (alerting.State (alerting.Rule_ evalContext))
    +:+ alerting.GetNotificationTitle evalContext +:+ nl +:+ nl +:+ "*State:* "
    +:+ alerting.Name (alerting.Rule_ evalContext) +:+ nl +:+ "*Message:* "
    +:+ alerting.Message (alerting.Rule_ evalContext) +:+ nl.
Proof. reflexivity. Qed.

Definition scenarioLegacyNotifier : NotifiersRoom.WebexNotifier :=
  {| NotifiersRoom.NotifierBase := alerting.NewNotifierBase scenarioModel okTransport;
     NotifiersRoom.URL := "https://example.test";
     NotifiersRoom.ApiToken := "tok";
     NotifiersRoom.RoomId := "R1";
     NotifiersRoom.log := "alerting.notifier.webex" |}.

(** C9, as stated, fails on the legacy notifiers: the message they build
    and the body they post for an alerting rule contain no /alerting/list
    link. *)
Lemma legacy_message_has_no_list_link :
  Contains (NotifiersWebhook.buildMessage (alertingContext models.AlertStateAlerting))
    "/alerting/list" = false
  ∧ Contains (NotifiersRoom.buildMessage (alertingContext models.AlertStateAlerting))
      "/alerting/list" = false
  ∧ NotifiersRoom.NewWebexNotifier scenarioModel plainDecrypt okTransport =
      (Some scenarioLegacyNotifier, None)
  ∧ (∃ cmd,
       sent (NotifiersRoom.Notify scenarioLegacyNotifier
               (alertingContext models.AlertStateAlerting) freshWorld).2 = [cmd]
       ∧ Contains (models.Body cmd) "/alerting/list" = false).
Proof.
  split; [vm_compute; reflexivity|]. split; [vm_compute; reflexivity|].
  split; [reflexivity|].
  destruct (LegacyRoom_Notify_run scenarioLegacyNotifier
              (alertingContext models.AlertStateAlerting) freshWorld) as (_ & Hsent).
  eexists. split; [exact Hsent|]. vm_compute. reflexivity.
Qed.

(** C9, amended.  In both revisions of webex.go every call of Notify,
    whatever the status of the batch, posts a message that contains the
    line "*URL:* " followed by path.Join of the external URL of the
    template and /alerting/list.  The legacy notifiers build their message
    from the state symbol, the title, the rule name and the rule message
    only. *)
Theorem ngalert_message_carries_list_link :
  (∀ tn alerts w,
     ∃ message,
       sent (ChannelsWebhook.Notify tn alerts w).2 =
         sent w ++ [ChannelsWebhook.request tn message]
       ∧ Contains message
           ("*URL:* "
            +:+ path.Join [template.ExternalURL (ChannelsWebhook.tmpl tn); "/alerting/list"]
            +:+ nl) = true)
  ∧ (∀ tn alerts w,
       ∃ message,
         sent (ChannelsRoom.Notify tn alerts w).2 =
           sent w ++ [ChannelsRoom.request tn message]
         ∧ Contains message
             ("*URL:* "
              +:+ path.Join [template.ExternalURL (ChannelsRoom.tmpl tn); "/alerting/list"]
              +:+ nl) = true)
  ∧ (∀ evalContext,
       NotifiersWebhook.buildMessage evalContext =
         NotifiersWebhook.stateEmoji (alerting.State (alerting.Rule_ evalContext))
         +:+ alerting.GetNotificationTitle evalContext +:+ nl +:+ nl +:+ "*State:* "
         +:+ alerting.Name (alerting.Rule_ evalContext) +:+ nl +:+ "*Message:* "
         +:+ alerting.Message (alerting.Rule_ evalContext) +:+ nl
       ∧ NotifiersRoom.buildMessage evalContext =
           NotifiersRoom.stateEmoji (alerting.State (alerting.Rule_ evalContext))
           +:+ alerting.GetNotificationTitle evalContext +:+ nl +:+ nl +:+ "*State:* "
           +:+ alerting.Name (alerting.Rule_ evalContext) +:+ nl +:+ "*Message:* "
           +:+ alerting.Message (alerting.Rule_ evalContext) +:+ nl).
Proof.
  split; [|split].
  - intros tn alerts w.
    destruct (Webhook_Notify_run tn alerts w) as (_ & Hsent & _).
    eexists. split; [exact Hsent|].
    destruct (Webhook_postedMessage_shape tn alerts (now w)) as (t & c & l & ->).
    do 8 apply Contains_append_r. apply Contains_prefix3.
  - intros tn alerts w.
    destruct (Room_Notify_run tn alerts w) as (_ & Hsent & _).
    eexists. split; [exact Hsent|].
    destruct (Room_postedMessage_shape tn alerts (now w)) as (t & c & l & ->).
    do 8 apply Contains_append_r. apply Contains_prefix3.
  - intros evalContext.
    split; [apply LegacyWebhook_buildMessage_shape | apply LegacyRoom_buildMessage_shape].
Qed.

(** The link path.Join produces for a usual external URL: Clean collapses
    the double slash after the scheme. *)
Example list_link_of_external_url :
  path.Join ["https://grafana.test"; "/alerting/list"] = "https:/grafana.test/alerting/list"
  ∧ path.Join ["http://localhost:3000/grafana/"; "/alerting/list"] =
      "http:/localhost:3000/grafana/alerting/list".
Proof. split; reflexivity. Qed.

(** ** Legacy state symbols *)

Lemma legacy_stateEmoji_total state :
  NotifiersWebhook.stateEmoji state = NotifiersRoom.stateEmoji state
  ∧ NotifiersRoom.stateEmoji state ∈
      [checkMark +:+ " "; questionMark +:+ " "; warningSign +:+ " "; ""].
Proof.
  split; [by destruct state|].
  destruct state; cbn [NotifiersRoom.stateEmoji]; set_solver.
Qed.




(** * Further properties of the notifiers *)

(** ** What the factories and constructors return *)

(** X1. WebexFactory of the webhook revision returns a notifier exactly
    when the webhook_url setting is a non-empty string; the notifier then
    posts to that URL, expands the message setting (the default template
    when it is absent) and carries name, type, UID and the resolve flag of
    the configuration.  Otherwise it returns no notifier and a
    receiverInitError with the validator's text and the configuration it
    was given. *)
Theorem WebexFactory_webhook_outcome :
  ∀ fc,
    let config := ChannelsWebhook.fcConfig fc in
    let url := simplejson.MustString (simplejson.Get (Settings config) "webhook_url") in
    (url ≠ "" →
     ∃ tn,
       ChannelsWebhook.WebexFactory fc = (Some tn, None)
       ∧ ChannelsWebhook.WebhookURL tn = url
       ∧ ChannelsWebhook.Content tn =
           simplejson.MustStringOr (simplejson.Get (Settings config) "message")
             defaultMessageLiteral
       ∧ ChannelsWebhook.Base tn =
           {| base.Name := Name config; base.Type_ := Type_ config;
              base.UID := UID config;
              base.DisableResolveMessage := DisableResolveMessage config |}
       ∧ ChannelsWebhook.images tn = ChannelsWebhook.fcImageStore fc
       ∧ ChannelsWebhook.ns tn = ChannelsWebhook.fcNotificationService fc
       ∧ ChannelsWebhook.tmpl tn = ChannelsWebhook.fcTemplate fc)
    ∧ (url = "" →
       ChannelsWebhook.WebexFactory fc =
         (None, Some (receiverInitError "could not find Webex Webhook URL in settings"
                        config)))
    ∧ (is_Some (ChannelsWebhook.WebexFactory fc).1
       ↔ (ChannelsWebhook.WebexFactory fc).2 = None).
Proof.
  intros fc config url. unfold ChannelsWebhook.WebexFactory, ChannelsWebhook.NewWebexConfig.
  fold config url.
  destruct (String.eqb url "") eqn:Hurl.
  - apply String.eqb_eq in Hurl. cbn.
    split; [by intros []|]. split; [done|].
    split; [by intros [? ?] | done].
  - apply String.eqb_neq in Hurl. cbn.
    split; [|split; [done|]].
    + intros _. eexists. split; [reflexivity|]. done.
    + split; [done | by eexists].
Qed.

Lemma WebexFactory_webhook_outcome_witness :
  (∃ tn, ChannelsWebhook.WebexFactory webhookFactoryConfig = (Some tn, None)
         ∧ ChannelsWebhook.WebhookURL tn = "https://example.test/hook")
  ∧ ChannelsWebhook.WebexFactory
      {| ChannelsWebhook.fcConfig := channelConfig ∅;
         ChannelsWebhook.fcNotificationService := okTransport;
         ChannelsWebhook.fcDecryptFunc := plainDecrypt;
         ChannelsWebhook.fcImageStore := noImages;
         ChannelsWebhook.fcTemplate := echoTemplate "https://grafana.test" |} =
      (None, Some (receiverInitError "could not find Webex Webhook URL in settings"
                     (channelConfig ∅))).
Proof.
  split.
  - destruct (WebexFactory_webhook_outcome webhookFactoryConfig) as (Hok & _).
    destruct Hok as (tn & Heq & Hurl & _); [discriminate|].
    exists tn. split; [exact Heq | exact Hurl].
  - apply (WebexFactory_webhook_outcome
             {| ChannelsWebhook.fcConfig := channelConfig ∅;
                ChannelsWebhook.fcNotificationService := okTransport;
                ChannelsWebhook.fcDecryptFunc := plainDecrypt;
                ChannelsWebhook.fcImageStore := noImages;
                ChannelsWebhook.fcTemplate := echoTemplate "https://grafana.test" |}).
    reflexivity.
Defined.

(** X2. WebexFactory of the room revision returns a notifier exactly when
    url, room_id and the secret resolved by the decrypt function are all
    non-empty; the notifier carries those three values.  Otherwise it
    returns no notifier and a receiverInitError for the configuration,
    whose reason is the text of the first empty field in the order url,
    room ID, secret. *)
Theorem WebexFactory_room_outcome :
  ∀ fc,
    let config := ChannelsRoom.fcConfig fc in
    let url := simplejson.MustString (simplejson.Get (Settings config) "url") in
    let roomID := simplejson.MustString (simplejson.Get (Settings config) "room_id") in
    let apiSecret :=
      ChannelsRoom.fcDecryptFunc fc (SecureSettings config) "api_secret"
        (simplejson.MustString (simplejson.Get (Settings config) "api_secret")) in
    (url ≠ "" ∧ roomID ≠ "" ∧ apiSecret ≠ ""
     ↔ ∃ tn, ChannelsRoom.WebexFactory fc = (Some tn, None))
    ∧ (∀ tn, ChannelsRoom.WebexFactory fc = (Some tn, None) →
         ChannelsRoom.URL tn = url ∧ ChannelsRoom.RoomID tn = roomID
         ∧ ChannelsRoom.APISecret tn = apiSecret
         ∧ base.Name (ChannelsRoom.Base tn) = Name config
         ∧ ChannelsRoom.ns tn = ChannelsRoom.fcNotificationService fc)
    ∧ (∀ err, (ChannelsRoom.WebexFactory fc).2 = Some err →
         (ChannelsRoom.WebexFactory fc).1 = None
         ∧ err = receiverInitError
                   (if String.eqb url "" then "could not find Webex URL in settings"
                    else if String.eqb roomID "" then "could not find Webex Room ID in settings"
                    else "could not find Webex API secret in settings") config)
    ∧ (is_Some (ChannelsRoom.WebexFactory fc).1
       ↔ (ChannelsRoom.WebexFactory fc).2 = None).
Proof.
  intros fc config url roomID apiSecret.
  unfold ChannelsRoom.WebexFactory, ChannelsRoom.NewWebexConfig.
  fold config url roomID. fold apiSecret.
  destruct (String.eqb url "") eqn:Hurl;
    [|destruct (String.eqb roomID "") eqn:Hroom;
      [|destruct (String.eqb apiSecret "") eqn:Hsecret]];
    rewrite ?String.eqb_eq, ?String.eqb_neq in *; cbn.
  - split; [split; [by intros (? & _) | by intros [? ?]]|].
    split; [done|]. split; [by intros ? [= <-]|]. split; [by intros [? ?] | done].
  - split; [split; [by intros (_ & ? & _) | by intros [? ?]]|].
    split; [done|]. split; [by intros ? [= <-]|]. split; [by intros [? ?] | done].
  - split; [split; [by intros (_ & _ & ?) | by intros [? ?]]|].
    split; [done|]. split; [by intros ? [= <-]|]. split; [by intros [? ?] | done].
  - split; [split; [by eexists | done]|].
    split; [by intros ? [= <-]|]. split; [done|]. split; [done | by eexists].
Qed.

Lemma WebexFactory_room_outcome_witness :
  (∃ tn, ChannelsRoom.WebexFactory roomFactoryConfig = (Some tn, None)
         ∧ ChannelsRoom.RoomID tn = "R1" ∧ ChannelsRoom.APISecret tn = "tok")
  ∧ (ChannelsRoom.WebexFactory
       {| ChannelsRoom.fcConfig := channelConfig {[ "url" := JString "https://example.test" ]};
          ChannelsRoom.fcNotificationService := okTransport;
          ChannelsRoom.fcDecryptFunc := plainDecrypt;
          ChannelsRoom.fcImageStore := noImages;
          ChannelsRoom.fcTemplate := echoTemplate "https://grafana.test" |}).1 = None.
Proof.
  split.
  - destruct (WebexFactory_room_outcome roomFactoryConfig) as (Hiff & Hfields & _).
    destruct (proj1 Hiff) as [tn Htn]; [repeat split; discriminate|].
    exists tn. split; [exact Htn|].
    destruct (Hfields tn Htn) as (_ & Hr & Hs & _). split; [exact Hr | exact Hs].
  - eapply (WebexFactory_room_outcome
              {| ChannelsRoom.fcConfig :=
                   channelConfig {[ "url" := JString "https://example.test" ]};
                 ChannelsRoom.fcNotificationService := okTransport;
                 ChannelsRoom.fcDecryptFunc := plainDecrypt;
                 ChannelsRoom.fcImageStore := noImages;
                 ChannelsRoom.fcTemplate := echoTemplate "https://grafana.test" |}).
    reflexivity.
Defined.

(** X3. The legacy constructors return a notifier exactly when their
    required settings are non-empty strings (webhook_url; url, webexToken
    and roomId), and never a notifier together with an error.  The
    notifier keeps the name and type of the model, as the repository's
    test expects, and the values of the settings; the content setting of
    the webhook notifier is optional and empty when it is absent or no
    string. *)
Theorem legacy_constructor_outcome :
  ∀ model (decryptFunc : GetDecryptedValueFn) ns,
    let setting key := simplejson.MustString (simplejson.Get (models.Settings model) key) in
    (setting "webhook_url" ≠ ""
     ↔ ∃ wn, NotifiersWebhook.NewWebexNotifier model decryptFunc ns = (Some wn, None))
    ∧ (∀ wn, NotifiersWebhook.NewWebexNotifier model decryptFunc ns = (Some wn, None) →
         alerting.baseName (NotifiersWebhook.NotifierBase wn) = models.Name model
         ∧ alerting.baseType (NotifiersWebhook.NotifierBase wn) = models.Type_ model
         ∧ NotifiersWebhook.WebhookURL wn = setting "webhook_url"
         ∧ NotifiersWebhook.Content wn = setting "content")
    ∧ (is_Some (NotifiersWebhook.NewWebexNotifier model decryptFunc ns).1
       ↔ (NotifiersWebhook.NewWebexNotifier model decryptFunc ns).2 = None)
    ∧ (setting "url" ≠ "" ∧ setting "webexToken" ≠ "" ∧ setting "roomId" ≠ ""
       ↔ ∃ wn, NotifiersRoom.NewWebexNotifier model decryptFunc ns = (Some wn, None))
    ∧ (∀ wn, NotifiersRoom.NewWebexNotifier model decryptFunc ns = (Some wn, None) →
         alerting.baseName (NotifiersRoom.NotifierBase wn) = models.Name model
         ∧ alerting.baseType (NotifiersRoom.NotifierBase wn) = models.Type_ model
         ∧ NotifiersRoom.URL wn = setting "url"
         ∧ NotifiersRoom.ApiToken wn = setting "webexToken"
         ∧ NotifiersRoom.RoomId wn = setting "roomId")
    ∧ (is_Some (NotifiersRoom.NewWebexNotifier model decryptFunc ns).1
       ↔ (NotifiersRoom.NewWebexNotifier model decryptFunc ns).2 = None).
Proof.
  intros model decryptFunc ns setting.
  split; [|split; [|split; [|split; [|split]]]].
  - unfold NotifiersWebhook.NewWebexNotifier. fold (setting "webhook_url").
    destruct (String.eqb (setting "webhook_url") "") eqn:H;
      rewrite ?String.eqb_eq, ?String.eqb_neq in H.
    + split; [done | by intros [? ?]].
    + split; [by eexists | done].
  - unfold NotifiersWebhook.NewWebexNotifier. fold (setting "webhook_url").
    destruct (String.eqb (setting "webhook_url") ""); [done|].
    by intros wn [= <-].
  - unfold NotifiersWebhook.NewWebexNotifier.
    destruct (String.eqb _ ""); cbn; (split; [|done]); [by intros [? ?] | by eexists].
  - unfold NotifiersRoom.NewWebexNotifier.
    fold (setting "url") (setting "webexToken") (setting "roomId").
    destruct (String.eqb (setting "url") "") eqn:Hu;
      [|destruct (String.eqb (setting "webexToken") "") eqn:Ht;
        [|destruct (String.eqb (setting "roomId") "") eqn:Hr]];
      rewrite ?String.eqb_eq, ?String.eqb_neq in *.
    + split; [by intros (? & _) | by intros [? ?]].
    + split; [by intros (_ & ? & _) | by intros [? ?]].
    + split; [by intros (_ & _ & ?) | by intros [? ?]].
    + split; [by eexists | done].
  - intros wn Hwn.
    apply LegacyRoom_NewWebexNotifier_ok in Hwn as (Hu & Ht & Hr & ->). done.
  - unfold NotifiersRoom.NewWebexNotifier.
    repeat (destruct (String.eqb (simplejson.MustString _) ""); cbn;
            [split; [by intros [? ?] | done]|]).
    split; [done | by eexists].
Qed.

Lemma legacy_constructor_outcome_witness :
  ∃ wn,
    NotifiersWebhook.NewWebexNotifier testModel plainDecrypt okTransport = (Some wn, None)
    ∧ alerting.baseName (NotifiersWebhook.NotifierBase wn) = "ops"
    ∧ alerting.baseType (NotifiersWebhook.NotifierBase wn) = "webex"
    ∧ NotifiersWebhook.WebhookURL wn = "https://webexapis.com/v1/webhooks/incoming/room-id".
Proof.
  destruct (legacy_constructor_outcome testModel plainDecrypt okTransport)
    as (Hiff & Hfields & _).
  destruct (proj1 Hiff) as [wn Hwn]; [discriminate|].
  exists wn. split; [exact Hwn|].
  destruct (Hfields wn Hwn) as (Hn & Ht & Hu & _).
  split; [exact Hn|]. split; [exact Ht | exact Hu].
Defined.

(** ** The plugin descriptions and the constructors agree *)

(** Every option the plugin marks Required has a non-empty string in the
    settings. *)
Definition requiredOptionsPresent (options : list alerting.NotifierOption)
    (settings : Json) : Prop :=
  ∀ opt, opt ∈ options → alerting.Required opt = true →
         simplejson.MustString (simplejson.Get settings (alerting.PropertyName opt)) ≠ "".

(** X4. For both legacy plugins the options registered as Required are
    exactly the settings the registered Factory insists on: the Factory
    returns a notifier if and only if every Required option has a
    non-empty string value in the settings of the model. *)
Theorem plugin_required_options_match_factory :
  ∀ model (decryptFunc : GetDecryptedValueFn) ns,
    (requiredOptionsPresent (alerting.Options NotifiersWebhook.webexPlugin)
       (models.Settings model)
     ↔ ∃ wn, alerting.Factory NotifiersWebhook.webexPlugin model decryptFunc ns =
               (Some wn, None))
    ∧ (requiredOptionsPresent (alerting.Options NotifiersRoom.webexPlugin)
         (models.Settings model)
       ↔ ∃ wn, alerting.Factory NotifiersRoom.webexPlugin model decryptFunc ns =
                 (Some wn, None)).
Proof.
  intros model decryptFunc ns.
  destruct (legacy_constructor_outcome model decryptFunc ns)
    as (Hweb & _ & _ & Hroom & _).
  split.
  - rewrite <- Hweb. unfold requiredOptionsPresent. cbn [alerting.Options NotifiersWebhook.webexPlugin].
    split.
    + intros H. apply (H _ (list_elem_of_here _ _)). reflexivity.
    + intros H opt Hin Hreq. rewrite !elem_of_cons, elem_of_nil in Hin.
      destruct Hin as [->|[->|[]]]; [exact H | discriminate Hreq].
  - rewrite <- Hroom. unfold requiredOptionsPresent. cbn [alerting.Options NotifiersRoom.webexPlugin].
    split.
    + intros H.
      pose proof (H _ (list_elem_of_here _ _) eq_refl) as Hu.
      pose proof (H _ (list_elem_of_further _ _ _ (list_elem_of_here _ _)) eq_refl) as Ht.
      pose proof (H _ (list_elem_of_further _ _ _
                         (list_elem_of_further _ _ _ (list_elem_of_here _ _))) eq_refl)
        as Hr.
      exact (conj Hu (conj Ht Hr)).
    + intros (Hu & Ht & Hr) opt Hin Hreq. rewrite !elem_of_cons, elem_of_nil in Hin.
      destruct Hin as [->|[->|[->|[]]]]; assumption.
Qed.

(** ** Log lines *)

Definition errorLine (kind : string) (err : error) (name : string) : LogEntry :=
  {| level := LvlError; msg := "Failed to send webex notification";
     ctx := [LogString kind; LogErr err; LogString "webhook"; LogString name] |}.

Definition warnLine (err : error) : LogEntry :=
  {| level := LvlWarn; msg := "failed to template Webex message";
     ctx := [LogString "err"; LogString (Error err)] |}.

Definition whenSome {A B} (o : option A) (f : A → B) : list B :=
  match o with Some a => [f a] | None => [] end.

Lemma Webhook_Notify_logs tn alerts w :
  logs (ChannelsWebhook.Notify tn alerts w).2 =
    logs w
    ++ [{| level := LvlDebug; msg := "sending webex alert notification at url";
           ctx := [LogString (ChannelsWebhook.WebhookURL tn)] |}]
    ++ whenSome (ChannelsWebhook.buildMessage tn alerts (types.StatusAt alerts (now w))).2
         warnLine
    ++ whenSome (notifications.answer (ChannelsWebhook.ns tn) (sent w)
                   (ChannelsWebhook.request tn
                      (ChannelsWebhook.postedMessage tn alerts (now w))))
         (λ err, errorLine "err" err (base.Name (ChannelsWebhook.Base tn))).
Proof.
  unfold ChannelsWebhook.Notify, ChannelsWebhook.postedMessage, types.Status, timeNow,
    notifications.SendWebhookSync, logf, mbind, mret, M_bind, M_ret; cbn.
  destruct (ChannelsWebhook.buildMessage _ _ _) as [message [e|]]; cbn;
    destruct (notifications.answer _ _ _); cbn; by rewrite <- ?app_assoc.
Qed.

Lemma Room_Notify_logs tn alerts w :
  logs (ChannelsRoom.Notify tn alerts w).2 =
    logs w
    ++ [{| level := LvlDebug; msg := "sending webex alert notification at url";
           ctx := [LogString (ChannelsRoom.URL tn); LogString "to";
                   LogString (ChannelsRoom.RoomID tn)] |}]
    ++ whenSome (ChannelsRoom.buildMessage tn alerts (types.StatusAt alerts (now w))).2
         warnLine
    ++ whenSome (notifications.answer (ChannelsRoom.ns tn) (sent w)
                   (ChannelsRoom.request tn
                      (ChannelsRoom.postedMessage tn alerts (now w))))
         (λ err, errorLine "err" err (base.Name (ChannelsRoom.Base tn))).
Proof.
  unfold ChannelsRoom.Notify, ChannelsRoom.postedMessage, types.Status, timeNow,
    notifications.SendWebhookSync, logf, mbind, mret, M_bind, M_ret; cbn.
  destruct (ChannelsRoom.buildMessage _ _ _) as [message [e|]]; cbn;
    destruct (notifications.answer _ _ _); cbn; by rewrite <- ?app_assoc.
Qed.

Lemma LegacyRoom_Notify_logs wn evalContext w :
  logs (NotifiersRoom.Notify wn evalContext w).2 =
    logs w
    ++ [{| level := LvlInfo; msg := "Executing webex notification";
           ctx := [LogString "ruleId"; LogInt (alerting.ID (alerting.Rule_ evalContext));
                   LogString "notification";
                   LogString (alerting.baseName (NotifiersRoom.NotifierBase wn))] |}]
    ++ whenSome (notifications.answer
                   (alerting.NotificationService (NotifiersRoom.NotifierBase wn)) (sent w)
                   (NotifiersRoom.request wn (NotifiersRoom.buildMessage evalContext)))
         (λ err, errorLine "error" err (alerting.baseName (NotifiersRoom.NotifierBase wn))).
Proof.
  unfold NotifiersRoom.Notify, notifications.SendWebhookSync, logf, mbind, mret,
    M_bind, M_ret; cbn.
  destruct (notifications.answer _ _ _); cbn; by rewrite <- ?app_assoc.
Qed.

Lemma LegacyWebhook_Notify_logs wn evalContext w :
  logs (NotifiersWebhook.Notify wn evalContext w).2 =
    logs w
    ++ [{| level := LvlInfo; msg := "Executing webex notification";
           ctx := [LogString "ruleId"; LogInt (alerting.ID (alerting.Rule_ evalContext));
                   LogString "notification";
                   LogString (alerting.baseName (NotifiersWebhook.NotifierBase wn))] |}]
    ++ whenSome (notifications.answer
                   (alerting.NotificationService (NotifiersWebhook.NotifierBase wn)) (sent w)
                   (NotifiersWebhook.request wn (NotifiersWebhook.buildMessage evalContext)))
         (λ err, errorLine "error" err (alerting.baseName (NotifiersWebhook.NotifierBase wn))).
Proof.
  unfold NotifiersWebhook.Notify, notifications.SendWebhookSync, logf, mbind, mret,
    M_bind, M_ret; cbn.
  destruct (notifications.answer _ _ _); cbn; by rewrite <- ?app_assoc.
Qed.

(** X5. One call of Notify of either revision of webex.go adds to the log,
    in this order: one debug line with the URL (and the room ID in the
    room revision); one warning with the error text if and only if a
    template failed; one error line with the transport's error and the
    name of the channel if and only if the transport failed.  Earlier
    lines are kept. *)
Theorem Notify_log_lines :
  (∀ tn alerts w,
     logs (ChannelsWebhook.Notify tn alerts w).2 =
       logs w
       ++ [{| level := LvlDebug; msg := "sending webex alert notification at url";
              ctx := [LogString (ChannelsWebhook.WebhookURL tn)] |}]
       ++ whenSome (ChannelsWebhook.buildMessage tn alerts (types.StatusAt alerts (now w))).2
            (λ err, {| level := LvlWarn; msg := "failed to template Webex message";
                       ctx := [LogString "err"; LogString (Error err)] |})
       ++ whenSome (ChannelsWebhook.Notify tn alerts w).1.2
            (λ err, {| level := LvlError; msg := "Failed to send webex notification";
                       ctx := [LogString "err"; LogErr err; LogString "webhook";
                               LogString (base.Name (ChannelsWebhook.Base tn))] |}))
  ∧ (∀ tn alerts w,
       logs (ChannelsRoom.Notify tn alerts w).2 =
         logs w
         ++ [{| level := LvlDebug; msg := "sending webex alert notification at url";
                ctx := [LogString (ChannelsRoom.URL tn); LogString "to";
                        LogString (ChannelsRoom.RoomID tn)] |}]
         ++ whenSome (ChannelsRoom.buildMessage tn alerts (types.StatusAt alerts (now w))).2
              (λ err, {| level := LvlWarn; msg := "failed to template Webex message";
                         ctx := [LogString "err"; LogString (Error err)] |})
         ++ whenSome (ChannelsRoom.Notify tn alerts w).1.2
              (λ err, {| level := LvlError; msg := "Failed to send webex notification";
                         ctx := [LogString "err"; LogErr err; LogString "webhook";
                                 LogString (base.Name (ChannelsRoom.Base tn))] |})).
Proof.
  split; intros tn alerts w.
  - rewrite Webhook_Notify_logs.
    destruct (Webhook_Notify_run tn alerts w) as (-> & _).
    by destruct (notifications.answer _ _ _).
  - rewrite Room_Notify_logs.
    destruct (Room_Notify_run tn alerts w) as (-> & _).
    by destruct (notifications.answer _ _ _).
Qed.

(** X6. One call of the legacy Notify hands exactly one request to the
    notification service: a POST of content type application/json to the
    configured URL.  It returns the error of the service unchanged, or nil
    when there is none, and logs one info line with the rule ID and the
    notifier name, followed by one error line exactly when the service
    failed.  Both legacy notifiers. *)
Theorem legacy_Notify_delivers_once :
  (∀ wn evalContext w,
     ∃ cmd,
       sent (NotifiersWebhook.Notify wn evalContext w).2 = sent w ++ [cmd]
       ∧ models.Url cmd = NotifiersWebhook.WebhookURL wn
       ∧ models.HttpMethod cmd = "POST"
       ∧ models.ContentType cmd = "application/json; charset=utf-8"
       ∧ (NotifiersWebhook.Notify wn evalContext w).1 =
           notifications.answer
             (alerting.NotificationService (NotifiersWebhook.NotifierBase wn)) (sent w) cmd
       ∧ logs (NotifiersWebhook.Notify wn evalContext w).2 =
           logs w
           ++ [{| level := LvlInfo; msg := "Executing webex notification";
                  ctx := [LogString "ruleId";
                          LogInt (alerting.ID (alerting.Rule_ evalContext));
                          LogString "notification";
                          LogString (alerting.baseName (NotifiersWebhook.NotifierBase wn))] |}]
           ++ whenSome (NotifiersWebhook.Notify wn evalContext w).1
                (λ err, {| level := LvlError; msg := "Failed to send webex notification";
                           ctx := [LogString "error"; LogErr err; LogString "webhook";
                                   LogString (alerting.baseName
                                                (NotifiersWebhook.NotifierBase wn))] |}))
  ∧ (∀ wn evalContext w,
       ∃ cmd,
         sent (NotifiersRoom.Notify wn evalContext w).2 = sent w ++ [cmd]
         ∧ models.Url cmd = NotifiersRoom.URL wn
         ∧ models.HttpMethod cmd = "POST"
         ∧ models.ContentType cmd = "application/json; charset=utf-8"
         ∧ (NotifiersRoom.Notify wn evalContext w).1 =
             notifications.answer
               (alerting.NotificationService (NotifiersRoom.NotifierBase wn)) (sent w) cmd
         ∧ logs (NotifiersRoom.Notify wn evalContext w).2 =
             logs w
             ++ [{| level := LvlInfo; msg := "Executing webex notification";
                    ctx := [LogString "ruleId";
                            LogInt (alerting.ID (alerting.Rule_ evalContext));
                            LogString "notification";
                            LogString (alerting.baseName (NotifiersRoom.NotifierBase wn))] |}]
             ++ whenSome (NotifiersRoom.Notify wn evalContext w).1
                  (λ err, {| level := LvlError; msg := "Failed to send webex notification";
                             ctx := [LogString "error"; LogErr err; LogString "webhook";
                                     LogString (alerting.baseName
                                                  (NotifiersRoom.NotifierBase wn))] |})).
Proof.
  split; intros wn evalContext w.
  - destruct (LegacyWebhook_Notify_run wn evalContext w) as (Hres & Hsent).
    eexists. split; [exact Hsent|]. do 3 (split; [reflexivity|]).
    split; [exact Hres|]. by rewrite LegacyWebhook_Notify_logs, Hres.
  - destruct (LegacyRoom_Notify_run wn evalContext w) as (Hres & Hsent).
    eexists. split; [exact Hsent|]. do 3 (split; [reflexivity|]).
    split; [exact Hres|]. by rewrite LegacyRoom_Notify_logs, Hres.
Qed.

(** ** The secret stays out of the log *)

Definition withAPISecret (tn : ChannelsRoom.WebexNotifier) (secret : string)
  : ChannelsRoom.WebexNotifier :=
  {| ChannelsRoom.Base := ChannelsRoom.Base tn;
     ChannelsRoom.URL := ChannelsRoom.URL tn;
     ChannelsRoom.RoomID := ChannelsRoom.RoomID tn;
     ChannelsRoom.APISecret := secret;
     ChannelsRoom.log := ChannelsRoom.log tn;
     ChannelsRoom.images := ChannelsRoom.images tn;
     ChannelsRoom.ns := ChannelsRoom.ns tn;
     ChannelsRoom.tmpl := ChannelsRoom.tmpl tn |}.

Definition withApiToken (wn : NotifiersRoom.WebexNotifier) (token : string)
  : NotifiersRoom.WebexNotifier :=
  {| NotifiersRoom.NotifierBase := NotifiersRoom.NotifierBase wn;
     NotifiersRoom.URL := NotifiersRoom.URL wn;
     NotifiersRoom.ApiToken := token;
     NotifiersRoom.RoomId := NotifiersRoom.RoomId wn;
     NotifiersRoom.log := NotifiersRoom.log wn |}.

(** X7. The room notifiers never write their secret to the log: two
    notifiers that differ only in the API secret (the API token in the
    legacy notifier) write the same log lines, provided the transport
    answers their two requests alike; the requests themselves differ only
    in the Authorization header. *)
Theorem secret_not_logged :
  (∀ tn secret alerts w,
     let tn' := withAPISecret tn secret in
     let message := ChannelsRoom.postedMessage tn alerts (now w) in
     notifications.answer (ChannelsRoom.ns tn) (sent w) (ChannelsRoom.request tn message) =
       notifications.answer (ChannelsRoom.ns tn) (sent w) (ChannelsRoom.request tn' message) →
     logs (ChannelsRoom.Notify tn alerts w).2 = logs (ChannelsRoom.Notify tn' alerts w).2
     ∧ ChannelsRoom.request tn' message =
         {| models.Url := models.Url (ChannelsRoom.request tn message);
            models.Body := models.Body (ChannelsRoom.request tn message);
            models.HttpMethod := models.HttpMethod (ChannelsRoom.request tn message);
            models.ContentType := models.ContentType (ChannelsRoom.request tn message);
            models.HttpHeader := {[ "Authorization" := "Bearer " +:+ secret ]} |})
  ∧ (∀ wn token evalContext w,
       let wn' := withApiToken wn token in
       let message := NotifiersRoom.buildMessage evalContext in
       notifications.answer (alerting.NotificationService (NotifiersRoom.NotifierBase wn))
         (sent w) (NotifiersRoom.request wn message) =
         notifications.answer (alerting.NotificationService (NotifiersRoom.NotifierBase wn))
           (sent w) (NotifiersRoom.request wn' message) →
       logs (NotifiersRoom.Notify wn evalContext w).2 =
         logs (NotifiersRoom.Notify wn' evalContext w).2
       ∧ NotifiersRoom.request wn' message =
           {| models.Url := models.Url (NotifiersRoom.request wn message);
              models.Body := models.Body (NotifiersRoom.request wn message);
              models.HttpMethod := models.HttpMethod (NotifiersRoom.request wn message);
              models.ContentType := models.ContentType (NotifiersRoom.request wn message);
              models.HttpHeader := {[ "Authorization" := "Bearer " +:+ token ]} |}).
Proof.
  split.
  - intros tn secret alerts w tn' message Hanswer.
    split.
    + rewrite !Room_Notify_logs. fold message.
      change (ChannelsRoom.postedMessage tn' alerts (now w)) with message.
      by rewrite Hanswer.
    + unfold ChannelsRoom.request. cbn [models.Url models.Body models.HttpMethod
        models.ContentType]. by rewrite Sprintf_Bearer.
  - intros wn token evalContext w wn' message Hanswer.
    split.
    + rewrite !LegacyRoom_Notify_logs. fold message. by rewrite Hanswer.
    + unfold NotifiersRoom.request. cbn [models.Url models.Body models.HttpMethod
        models.ContentType]. by rewrite Sprintf_Bearer.
Qed.

Lemma secret_not_logged_witness :
  logs (ChannelsRoom.Notify roomNotifier [firingAlert] freshWorld).2 =
    logs (ChannelsRoom.Notify (withAPISecret roomNotifier "another") [firingAlert]
            freshWorld).2
  ∧ logs (NotifiersRoom.Notify scenarioLegacyNotifier
            (alertingContext models.AlertStateAlerting) freshWorld).2 =
      logs (NotifiersRoom.Notify (withApiToken scenarioLegacyNotifier "another")
              (alertingContext models.AlertStateAlerting) freshWorld).2.
Proof.
  destruct secret_not_logged as [Hroom Hlegacy].
  split.
  - apply (Hroom roomNotifier "another" [firingAlert] freshWorld). reflexivity.
  - apply (Hlegacy scenarioLegacyNotifier "another"
             (alertingContext models.AlertStateAlerting) freshWorld). reflexivity.
Defined.

(** ** Image lines *)

(** The lines the image callback adds for a batch: one per alert that has
    a stored image with a URL, in batch order. *)
Fixpoint imageLines (images : ImageStore) (alerts : list types.Alert) : string :=
  match alerts with
  | [] => ""
  | a :: rest =>
      match GetImage images a with
      | Some img =>
          if String.eqb (ngmodels.URL img) "" then imageLines images rest
          else "*Image:* " +:+ ngmodels.URL img +:+ nl +:+ imageLines images rest
      | None => imageLines images rest
      end
  end.

Lemma Webhook_images_walk images alerts :
  ∀ index message,
    withStoredImagesFrom index images ChannelsWebhook.appendImage alerts message =
      (message +:+ imageLines images alerts, None).
Proof.
  induction alerts as [|a rest IH]; intros index message; cbn [withStoredImagesFrom imageLines].
  - by rewrite append_nil_r.
  - destruct (GetImage images a) as [img|]; [|apply IH].
    unfold ChannelsWebhook.appendImage.
    destruct (String.eqb (ngmodels.URL img) ""); cbn [negb]; rewrite IH; [done|].
    f_equal. rewrite append_assoc. f_equal.
    change (fmt.Sprintf _ _) with ("*Image:* " +:+ ngmodels.URL img +:+ nl).
    by rewrite !append_assoc.
Qed.

Lemma Room_images_walk images alerts :
  ∀ index message,
    withStoredImagesFrom index images ChannelsRoom.appendImage alerts message =
      (message +:+ imageLines images alerts, None).
Proof.
  induction alerts as [|a rest IH]; intros index message; cbn [withStoredImagesFrom imageLines].
  - by rewrite append_nil_r.
  - destruct (GetImage images a) as [img|]; [|apply IH].
    unfold ChannelsRoom.appendImage.
    destruct (String.eqb (ngmodels.URL img) ""); cbn [negb]; rewrite IH; [done|].
    f_equal. rewrite append_assoc. f_equal.
    change (fmt.Sprintf _ _) with ("*Image:* " +:+ ngmodels.URL img +:+ nl).
    by rewrite !append_assoc.
Qed.

(** X8. The message Notify posts is the built message followed by one
    line "*Image:* <url>" for each alert of the batch that has a stored
    image with a non-empty URL, in the order of the batch; alerts without
    a stored image and images without a URL add nothing, so a batch
    without images posts the built message unchanged.  Both revisions of
    webex.go. *)
Theorem posted_message_image_lines :
  (∀ tn alerts ts,
     ChannelsWebhook.postedMessage tn alerts ts =
       (ChannelsWebhook.buildMessage tn alerts (types.StatusAt alerts ts)).1
       +:+ imageLines (ChannelsWebhook.images tn) alerts)
  ∧ (∀ tn alerts ts,
       ChannelsRoom.postedMessage tn alerts ts =
         (ChannelsRoom.buildMessage tn alerts (types.StatusAt alerts ts)).1
         +:+ imageLines (ChannelsRoom.images tn) alerts)
  ∧ (∀ images alerts,
       Forall (λ a, ∀ img, GetImage images a = Some img → ngmodels.URL img = "") alerts →
       imageLines images alerts = "")
  ∧ (∀ images before a img after,
       GetImage images a = Some img → ngmodels.URL img ≠ "" →
       imageLines images (before ++ a :: after) =
         imageLines images before +:+ "*Image:* " +:+ ngmodels.URL img +:+ nl
         +:+ imageLines images after).
Proof.
  split; [|split; [|split]].
  - intros tn alerts ts. unfold ChannelsWebhook.postedMessage, withStoredImages.
    by rewrite Webhook_images_walk.
  - intros tn alerts ts. unfold ChannelsRoom.postedMessage, withStoredImages.
    by rewrite Room_images_walk.
  - intros images alerts. induction 1 as [|a rest Ha _ IH]; [reflexivity|].
    cbn [imageLines]. destruct (GetImage images a) as [img|]; [|exact IH].
    by rewrite (Ha img eq_refl).
  - intros images before a img after Himg Hurl.
    induction before as [|b before IH].
    + cbn [app imageLines]. rewrite Himg, (eqb_empty_false _ Hurl). reflexivity.
    + cbn [app imageLines]. rewrite IH.
      destruct (GetImage images b) as [imgb|]; [|reflexivity].
      destruct (String.eqb (ngmodels.URL imgb) ""); [reflexivity|].
      by rewrite !append_assoc.
Qed.

Definition oneImage : ImageStore :=
  {| GetImage := λ a, if decide (types.EndsAt a = None)
                      then Some {| ngmodels.Token := "t"; ngmodels.Path := "/tmp/a.png";
                                   ngmodels.URL := "https://img.test/a.png" |}
                      else None |}.

Lemma posted_message_image_lines_witness :
  imageLines noImages [firingAlert; resolvedAlert] = ""
  ∧ imageLines oneImage ([resolvedAlert] ++ firingAlert :: [resolvedAlert]) =
      imageLines oneImage [resolvedAlert] +:+ "*Image:* " +:+ "https://img.test/a.png" +:+ nl
      +:+ imageLines oneImage [resolvedAlert].
Proof.
  destruct posted_message_image_lines as (_ & _ & Hnone & Hone).
  split.
  - apply Hnone. repeat constructor; discriminate.
  - apply (Hone oneImage [resolvedAlert] firingAlert
             {| ngmodels.Token := "t"; ngmodels.Path := "/tmp/a.png";
                ngmodels.URL := "https://img.test/a.png" |} [resolvedAlert]);
      [reflexivity | discriminate].
Defined.

(** ** Which template becomes the message *)

(** X9. When the template engine succeeds, the webhook revision posts the
    expansion of the configured message setting between the title and the
    link, and the room revision the expansion of the default message
    template whatever the settings say; in both the title is the expansion
    of the default title template and no soft error is reported. *)
Theorem message_template_choice :
  (∀ config decryptFunc cfg images ns t alerts status m title content,
     ChannelsWebhook.NewWebexConfig config decryptFunc = (Some cfg, None) →
     simplejson.Get (Settings config) "message" = JString m →
     template.ExecuteTextString t DefaultMessageTitleEmbed alerts = (title, None) →
     template.ExecuteTextString t m alerts = (content, None) →
     ChannelsWebhook.buildMessage (ChannelsWebhook.NewWebexNotifier cfg images ns t)
       alerts status =
       (ChannelsWebhook.stateEmoji status +:+ title +:+ nl +:+ nl +:+ "*Message:*" +:+ nl
        +:+ content +:+ nl +:+ "*URL:* "
        +:+ path.Join [template.ExternalURL t; "/alerting/list"] +:+ nl,
        None))
  ∧ (∀ tn alerts status title content,
       template.ExecuteTextString (ChannelsRoom.tmpl tn) DefaultMessageTitleEmbed alerts =
         (title, None) →
       template.ExecuteTextString (ChannelsRoom.tmpl tn)
         ("{{ template " +:+ dq +:+ "default.message" +:+ dq +:+ " . }}") alerts =
         (content, None) →
       ChannelsRoom.buildMessage tn alerts status =
         (ChannelsRoom.stateEmoji status +:+ title +:+ nl +:+ nl +:+ "*Message:*" +:+ nl
          +:+ content +:+ nl +:+ "*URL:* "
          +:+ path.Join [template.ExternalURL (ChannelsRoom.tmpl tn); "/alerting/list"]
          +:+ nl,
          None)).
Proof.
  split.
  - intros config decryptFunc cfg images ns t alerts status m title content
      Hcfg Hm Htitle Hcontent.
    apply Webhook_NewWebexConfig_ok in Hcfg as (_ & _ & _ & Hc).
    unfold ChannelsWebhook.buildMessage, TmplText.
    cbn [ChannelsWebhook.tmpl ChannelsWebhook.Content ChannelsWebhook.NewWebexNotifier].
    rewrite Htitle, Hc, Hm. cbn [simplejson.MustStringOr]. rewrite Hcontent. reflexivity.
  - intros tn alerts status title content Htitle Hcontent.
    unfold ChannelsRoom.buildMessage, TmplText.
    rewrite Htitle. change defaultMessageLiteral with
      ("{{ template " +:+ dq +:+ "default.message" +:+ dq +:+ " . }}").
    rewrite Hcontent. reflexivity.
Qed.

Definition upperTemplate : template.Template :=
  {| template.ExternalURL := "https://grafana.test";
     template.ExecuteTextString := λ name _, ("<" +:+ name +:+ ">", None) |}.

Lemma message_template_choice_witness :
  ∃ cfg,
    ChannelsWebhook.NewWebexConfig
      (channelConfig {[ "webhook_url" := JString "https://example.test/hook";
                        "message" := JString "custom" ]}) plainDecrypt = (Some cfg, None)
    ∧ ChannelsWebhook.buildMessage
        (ChannelsWebhook.NewWebexNotifier cfg noImages okTransport upperTemplate)
        [firingAlert] types.AlertFiring =
        (ChannelsWebhook.stateEmoji types.AlertFiring
         +:+ ("<" +:+ DefaultMessageTitleEmbed +:+ ">") +:+ nl +:+ nl +:+ "*Message:*" +:+ nl
         +:+ "<custom>" +:+ nl +:+ "*URL:* "
         +:+ path.Join ["https://grafana.test"; "/alerting/list"] +:+ nl,
         None).
Proof.
  eexists. split; [reflexivity|].
  apply (proj1 message_template_choice
           (channelConfig {[ "webhook_url" := JString "https://example.test/hook";
                             "message" := JString "custom" ]})
           plainDecrypt _ noImages okTransport upperTemplate [firingAlert]
           types.AlertFiring "custom"); reflexivity.
Defined.

(** ** The link for a scheme://host external URL *)

Lemma Contains_slash_cons (c : ascii) (a : string) :
  Contains (String c a) "/" = false → c ≠ "/"%char ∧ Contains a "/" = false.
Proof.
  intros H. cbn [Contains String.prefix] in H.
  destruct (ascii_dec "/" c) as [Heq|Hne]; cbn in H.
  - by destruct a.
  - split; [congruence | exact H].
Qed.

Lemma split_cons_sep (a b : string) :
  Contains a "/" = false → split "/" (a +:+ String "/" b) = a :: split "/" b.
Proof.
  induction a as [|c a IH]; intros H; [reflexivity|].
  apply Contains_slash_cons in H as [Hc Ha].
  rewrite append_cons. cbn [split]. rewrite (IH Ha).
  by apply Ascii.eqb_neq in Hc as ->.
Qed.

Lemma Contains_slash_colon (a : string) :
  Contains a "/" = false → Contains (a +:+ ":") "/" = false.
Proof.
  induction a as [|c a IH]; intros H; [reflexivity|].
  apply Contains_slash_cons in H as [Hc Ha].
  rewrite append_cons. cbn [Contains String.prefix]. rewrite (IH Ha).
  by destruct (ascii_dec "/" c) as [<-|].
Qed.

Lemma nonempty_append_cons (a : string) (c : ascii) (b : string) :
  nonempty (a +:+ String c b) = true.
Proof. by destruct a. Qed.

Lemma colon_is_path_element (scheme : string) :
  scheme +:+ ":" ≠ "" ∧ scheme +:+ ":" ≠ "." ∧ scheme +:+ ":" ≠ "..".
Proof. destruct scheme as [|c [|c' [|c'' rest]]]; repeat split; discriminate. Qed.

Lemma cleanStep_keep (rooted : bool) (stack : list string) (elem : string) :
  elem ≠ "" → elem ≠ "." → elem ≠ ".." → path.cleanStep rooted stack elem = elem :: stack.
Proof.
  intros H0 H1 H2. unfold path.cleanStep.
  apply String.eqb_neq in H0, H1, H2. by rewrite H0, H1, H2.
Qed.

Lemma not_rooted (scheme rest : string) :
  Contains scheme "/" = false → HasPrefix ((scheme +:+ ":") +:+ rest) "/" = false.
Proof.
  intros H. destruct scheme as [|c scheme]; [reflexivity|].
  apply Contains_slash_cons in H as [Hc _].
  rewrite !append_cons. unfold HasPrefix. cbn [String.prefix].
  by destruct (ascii_dec "/" c) as [<-|].
Qed.

Lemma Join_two (a b : string) :
  nonempty a = true → nonempty b = true →
  path.Join [a; b] = path.Clean ((a +:+ "/") +:+ b).
Proof.
  intros Ha Hb. unfold path.Join. cbn [forallb foldl].
  repeat first [ rewrite Ha | rewrite Hb
               | progress cbn [negb andb orb nonempty]
               | progress change ("" +:+ a) with a ].
  reflexivity.
Qed.

Lemma Join_scheme_host (scheme host : string) :
  Contains scheme "/" = false → Contains host "/" = false →
  host ≠ "" → host ≠ "." → host ≠ ".." →
  path.Join [scheme +:+ "://" +:+ host; "/alerting/list"] =
    scheme +:+ ":/" +:+ host +:+ "/alerting/list".
Proof.
  intros Hscheme Hhost H0 H1 H2.
  rewrite Join_two; [|apply nonempty_append_cons | reflexivity].
  replace (((scheme +:+ "://" +:+ host) +:+ "/") +:+ "/alerting/list")
    with ((scheme +:+ ":") +:+
            String "/" (String "/" (host +:+ String "/" (String "/" "alerting/list"))))
    by (rewrite !append_assoc; reflexivity).
  unfold path.Clean.
  rewrite (not_rooted scheme _ Hscheme), nonempty_append_cons.
  cbn [negb].
  rewrite (split_cons_sep _ _ (Contains_slash_colon _ Hscheme)).
  change (split "/" (String "/" (host +:+ String "/" (String "/" "alerting/list"))))
    with ("" :: split "/" (host +:+ String "/" (String "/" "alerting/list"))).
  rewrite (split_cons_sep _ _ Hhost).
  change (split "/" (String "/" "alerting/list")) with [""; "alerting"; "list"].
  destruct (colon_is_path_element scheme) as (Hc0 & Hc1 & Hc2).
  cbn [foldl]. rewrite (cleanStep_keep false [] _ Hc0 Hc1 Hc2).
  change (path.cleanStep false [scheme +:+ ":"] "") with [scheme +:+ ":"].
  rewrite (cleanStep_keep false _ _ H0 H1 H2).
  change (path.cleanStep false [host; scheme +:+ ":"] "") with [host; scheme +:+ ":"].
  change (path.cleanStep false [host; scheme +:+ ":"] "alerting")
    with ["alerting"; host; scheme +:+ ":"].
  change (path.cleanStep false ["alerting"; host; scheme +:+ ":"] "list")
    with ["list"; "alerting"; host; scheme +:+ ":"].
  cbn [rev app gostring.Join].
  match goal with
  | |- context [nonempty ?out] =>
      assert (nonempty out = true) as -> by apply nonempty_append_cons
  end.
  rewrite !append_assoc. reflexivity.
Qed.

(** X10. For an external URL of the form scheme://host (no slash inside
    scheme or host, host not empty, "." or ".."), path.Join cleans the
    joined path and the double slash after the scheme is lost: the link
    every message of webex.go carries is scheme:/host/alerting/list. *)
Theorem list_link_loses_scheme_slash :
  ∀ scheme host,
    Contains scheme "/" = false → Contains host "/" = false →
    host ≠ "" → host ≠ "." → host ≠ ".." →
    path.Join [scheme +:+ "://" +:+ host; "/alerting/list"] =
      scheme +:+ ":/" +:+ host +:+ "/alerting/list"
    ∧ (∀ tn alerts w,
         template.ExternalURL (ChannelsWebhook.tmpl tn) = scheme +:+ "://" +:+ host →
         ∃ message,
           sent (ChannelsWebhook.Notify tn alerts w).2 =
             sent w ++ [ChannelsWebhook.request tn message]
           ∧ Contains message
               ("*URL:* " +:+ (scheme +:+ ":/" +:+ host +:+ "/alerting/list") +:+ nl) = true)
    ∧ (∀ tn alerts w,
         template.ExternalURL (ChannelsRoom.tmpl tn) = scheme +:+ "://" +:+ host →
         ∃ message,
           sent (ChannelsRoom.Notify tn alerts w).2 =
             sent w ++ [ChannelsRoom.request tn message]
           ∧ Contains message
               ("*URL:* " +:+ (scheme +:+ ":/" +:+ host +:+ "/alerting/list") +:+ nl) = true).
Proof.
  intros scheme host Hscheme Hhost H0 H1 H2.
  pose proof (Join_scheme_host scheme host Hscheme Hhost H0 H1 H2) as Hjoin.
  split; [exact Hjoin|]. split.
  - intros tn alerts w Hurl.
    destruct (Webhook_Notify_run tn alerts w) as (_ & Hsent & _).
    eexists. split; [exact Hsent|].
    destruct (Webhook_postedMessage_shape tn alerts (now w)) as (t & c & l & ->).
    rewrite Hurl, Hjoin.
    do 8 apply Contains_append_r. apply Contains_prefix3.
  - intros tn alerts w Hurl.
    destruct (Room_Notify_run tn alerts w) as (_ & Hsent & _).
    eexists. split; [exact Hsent|].
    destruct (Room_postedMessage_shape tn alerts (now w)) as (t & c & l & ->).
    rewrite Hurl, Hjoin.
    do 8 apply Contains_append_r. apply Contains_prefix3.
Qed.

Lemma list_link_loses_scheme_slash_witness :
  path.Join ["https" +:+ "://" +:+ "grafana.test:3000"; "/alerting/list"] =
    "https" +:+ ":/" +:+ "grafana.test:3000" +:+ "/alerting/list".
Proof.
  apply (list_link_loses_scheme_slash "https" "grafana.test:3000");
    [reflexivity | reflexivity | discriminate..].
Defined.

(** ** Calling Notify again *)


(** ** Legacy state symbols tell the states apart *)

(** X12. In both legacy notifiers the state symbol is non-empty exactly
    for OK, no-data and alerting, and each of these three has a symbol of
    its own: a non-empty symbol determines the state. *)
Theorem legacy_symbols_classify :
  ∀ s1 s2,
    NotifiersRoom.stateEmoji s1 ≠ "" →
    NotifiersRoom.stateEmoji s1 = NotifiersRoom.stateEmoji s2 →
    s1 = s2
    ∧ NotifiersWebhook.stateEmoji s1 = NotifiersRoom.stateEmoji s1
    ∧ (s1 = models.AlertStateOK ∨ s1 = models.AlertStateNoData
       ∨ s1 = models.AlertStateAlerting)
    ∧ (∀ s, NotifiersRoom.stateEmoji s = ""
            ↔ s ≠ models.AlertStateOK ∧ s ≠ models.AlertStateNoData
              ∧ s ≠ models.AlertStateAlerting).
Proof.
  intros s1 s2 Hne Heq.
  split; [|split; [|split]].
  - destruct s1, s2; try reflexivity; try (by destruct Hne);
      vm_compute in Heq; discriminate Heq.
  - by destruct s1.
  - destruct s1; try (by destruct Hne); auto.
  - intros s. destruct s; cbn [NotifiersRoom.stateEmoji]; split;
      try done; try (by intros (? & ? & ?)); vm_compute; discriminate.
Qed.

Lemma legacy_symbols_classify_witness :
  models.AlertStateNoData = models.AlertStateNoData
  ∧ NotifiersWebhook.stateEmoji models.AlertStateNoData =
      NotifiersRoom.stateEmoji models.AlertStateNoData.
Proof.
  destruct (legacy_symbols_classify models.AlertStateNoData models.AlertStateNoData)
    as (H1 & H2 & _); [discriminate | reflexivity |].
  split; [exact H1 | exact H2].
Defined.

(** ** Where the request goes *)

(** X13. A notifier returned by WebexFactory posts to the URL read from
    the settings, which is not empty, as application/json; the webhook
    revision sends no header at all and the room revision the single
    header Authorization. *)
Theorem factory_notifier_request_envelope :
  (∀ fc tn alerts w,
     ChannelsWebhook.WebexFactory fc = (Some tn, None) →
     ∃ cmd,
       sent (ChannelsWebhook.Notify tn alerts w).2 = sent w ++ [cmd]
       ∧ models.Url cmd =
           simplejson.MustString
             (simplejson.Get (Settings (ChannelsWebhook.fcConfig fc)) "webhook_url")
       ∧ models.Url cmd ≠ ""
       ∧ models.HttpMethod cmd = "POST"
       ∧ models.ContentType cmd = "application/json; charset=utf-8"
       ∧ models.HttpHeader cmd = ∅)
  ∧ (∀ fc tn alerts w,
       ChannelsRoom.WebexFactory fc = (Some tn, None) →
       ∃ cmd,
         sent (ChannelsRoom.Notify tn alerts w).2 = sent w ++ [cmd]
         ∧ models.Url cmd =
             simplejson.MustString
               (simplejson.Get (Settings (ChannelsRoom.fcConfig fc)) "url")
         ∧ models.Url cmd ≠ ""
         ∧ models.HttpMethod cmd = "POST"
         ∧ models.ContentType cmd = "application/json; charset=utf-8"
         ∧ dom (models.HttpHeader cmd) = {[ "Authorization" ]}).
Proof.
  split; intros fc tn alerts w.
  - unfold ChannelsWebhook.WebexFactory.
    destruct (ChannelsWebhook.NewWebexConfig _ _) as [[cfg|] [err|]] eqn:Hcfg;
      try discriminate.
    intros [= <-]. apply Webhook_NewWebexConfig_ok in Hcfg as (_ & Hurl & Hne & _).
    destruct (Webhook_Notify_run
                (ChannelsWebhook.NewWebexNotifier cfg (ChannelsWebhook.fcImageStore fc)
                   (ChannelsWebhook.fcNotificationService fc) (ChannelsWebhook.fcTemplate fc))
                alerts w) as (_ & Hsent & _).
    eexists. split; [exact Hsent|]. cbn. rewrite <- Hurl. done.
  - unfold ChannelsRoom.WebexFactory.
    destruct (ChannelsRoom.NewWebexConfig _ _) as [[cfg|] [err|]] eqn:Hcfg;
      try discriminate.
    intros [= <-]. apply Room_NewWebexConfig_ok in Hcfg as (_ & Hurl & _ & _ & Hne & _).
    destruct (Room_Notify_run
                (ChannelsRoom.NewWebexNotifier cfg (ChannelsRoom.fcImageStore fc)
                   (ChannelsRoom.fcNotificationService fc) (ChannelsRoom.fcTemplate fc))
                alerts w) as (_ & Hsent & _).
    eexists. split; [exact Hsent|].
    unfold ChannelsRoom.request.
    cbn [models.Url models.HttpMethod models.ContentType models.HttpHeader
         ChannelsRoom.URL ChannelsRoom.NewWebexNotifier].
    rewrite <- Hurl. repeat split; first [done | apply dom_singleton_L].
Qed.

Lemma factory_notifier_request_envelope_witness :
  (∃ tn cmd,
     ChannelsWebhook.WebexFactory webhookFactoryConfig = (Some tn, None)
     ∧ sent (ChannelsWebhook.Notify tn [firingAlert] freshWorld).2 = [cmd]
     ∧ models.Url cmd = "https://example.test/hook")
  ∧ (∃ tn cmd,
       ChannelsRoom.WebexFactory roomFactoryConfig = (Some tn, None)
       ∧ sent (ChannelsRoom.Notify tn [firingAlert] freshWorld).2 = [cmd]
       ∧ models.Url cmd = "https://example.test").
Proof.
  destruct factory_notifier_request_envelope as [Hwebhook Hroom].
  split; eexists.
  - destruct (Hwebhook webhookFactoryConfig _ [firingAlert] freshWorld eq_refl)
      as (cmd & Hsent & Hurl & _).
    exists cmd. split; [reflexivity|]. split; [exact Hsent | exact Hurl].
  - destruct (Hroom roomFactoryConfig _ [firingAlert] freshWorld eq_refl)
      as (cmd & Hsent & Hurl & _).
    exists cmd. split; [reflexivity|]. split; [exact Hsent | exact Hurl].
Defined.

(** ** No blank notification *)

(** X14. The message is never empty, whatever the templates expand to and
    whatever the rule carries: every revision writes its fixed labels.  So
    the markdown value of a body that has one is never the empty string. *)
Theorem message_never_empty :
  (∀ tn alerts ts, ChannelsWebhook.postedMessage tn alerts ts ≠ "")
  ∧ (∀ tn alerts ts, ChannelsRoom.postedMessage tn alerts ts ≠ "")
  ∧ (∀ evalContext, NotifiersWebhook.buildMessage evalContext ≠ "")
  ∧ (∀ evalContext, NotifiersRoom.buildMessage evalContext ≠ "")
  ∧ (∀ tn alerts w,
       ∃ message,
         sent (ChannelsRoom.Notify tn alerts w).2 =
           sent w ++ [ChannelsRoom.request tn message]
         ∧ ChannelsRoom.body tn message !! "markdown" = Some (JString message)
         ∧ message ≠ "").
Proof.
  assert (∀ tn alerts ts, ChannelsRoom.postedMessage tn alerts ts ≠ "") as Hroom.
  { intros tn alerts ts.
    destruct (Room_postedMessage_shape tn alerts ts) as (t & c & l & ->).
    do 2 apply append_not_empty_r. done. }
  split; [|split; [exact Hroom|split; [|split]]].
  - intros tn alerts ts.
    destruct (Webhook_postedMessage_shape tn alerts ts) as (t & c & l & ->).
    do 2 apply append_not_empty_r. done.
  - intros evalContext. apply legacy_message_not_empty.
  - intros evalContext. apply legacy_message_not_empty.
  - intros tn alerts w.
    destruct (Room_Notify_run tn alerts w) as (_ & Hsent & _).
    eexists. split; [exact Hsent|]. split; [reflexivity | apply Hroom].
Qed.
